(** * rtx-3080-watcher: the evaluator, the per-target check and the tab gate

    A shallow embedding of [src/index.ts].  Numbers that the program compares
    or multiplies as JavaScript numbers (prices, intervals in seconds) are
    binary64 floats; numbers that it compares with array lengths (the tab
    ceiling, the expected product count) are integers.  Strings are byte
    strings, the UTF-8 encoding of the text.  Logging is left out: [log] only writes to the console and to a
    file and nothing reads it back. *)

From Stdlib Require Import ZArith List String Ascii Bool Lia Floats DecimalString.
Import ListNotations.
Set Warnings "-inexact-float".
Local Open Scope string_scope.
Local Open Scope list_scope.

(** ** JavaScript values as the program uses them *)

Module JS.

(** A field that the program initialises to [null], that stays [undefined]
    when the object literal does not mention it, or that holds a value. *)
Inductive nullable (A : Type) : Type :=
| Undefined
| Null
| Val (a : A).
Arguments Undefined {A}.
Arguments Null {A}.
Arguments Val {A} a.

(** ToBoolean on a number: [0], [-0] and [NaN] are falsy. *)
Definition truthy_number (x : float) : bool :=
  negb (PrimFloat.eqb x 0 || PrimFloat.is_nan x).

(** ToBoolean on an integer-valued number. *)
Definition truthy_int (n : Z) : bool := negb (n =? 0)%Z.

(** ToBoolean on a string: only the empty string is falsy. *)
Definition truthy_string (s : string) : bool :=
  match s with EmptyString => false | String _ _ => true end.

(** ToBoolean on an optional configuration field ([undefined] is falsy). *)
Definition truthy_opt {A} (t : A -> bool) (o : option A) : bool :=
  match o with None => false | Some a => t a end.

(** ToBoolean on [null | boolean] (and [undefined]). *)
Definition ToBoolean (v : nullable bool) : bool :=
  match v with Val b => b | _ => false end.

(** ToNumber on [null | number] (and [undefined]): [null] is [+0],
    [undefined] is [NaN]. *)
Definition ToNumber (v : nullable float) : float :=
  match v with
  | Undefined => PrimFloat.nan
  | Null => 0%float
  | Val x => x
  end.

(** [x < y] on numbers: false as soon as one side is [NaN]. *)
Definition lt (x y : float) : bool := PrimFloat.ltb x y.

(** [/[^\d\.]/]: the characters that the price clean-up keeps. *)
Definition is_digit (c : ascii) : bool :=
  (48 <=? nat_of_ascii c)%nat && (nat_of_ascii c <=? 57)%nat.

Definition is_digit_or_dot (c : ascii) : bool :=
  is_digit c || (nat_of_ascii c =? 46)%nat.

(** [s.replace(/[^\d\.]/g, '')] *)
Fixpoint strip_non_price (s : string) : string :=
  match s with
  | EmptyString => EmptyString
  | String c r =>
      if is_digit_or_dot c then String c (strip_non_price r)
      else strip_non_price r
  end.

(** A text in which the clean-up keeps nothing. *)
Fixpoint no_price_chars (s : string) : bool :=
  match s with
  | EmptyString => true
  | String c r => negb (is_digit_or_dot c) && no_price_chars r
  end.

(** The number of decimal points in a text. *)
Fixpoint count_dots (s : string) : nat :=
  match s with
  | EmptyString => 0
  | String c r =>
      (if (nat_of_ascii c =? 46)%nat then 1 else 0) + count_dots r
  end.

(** [l.join(sep)] on an array of strings. *)
Definition join (sep : string) (l : list string) : string :=
  String.concat sep l.

(** The line feed of ['\n']. *)
Definition newline : string := String (ascii_of_nat 10) EmptyString.

(** *** [trim]

    The white space and line terminators that [trim] removes, in the
    UTF-8 encoding of the text: U+0009 to U+000D and U+0020 in one byte,
    U+00A0 in two, and U+1680, U+2000 to U+200A, U+2028, U+2029, U+202F,
    U+205F, U+3000 and U+FEFF in three. *)
Definition is_space (c : ascii) : bool :=
  let n := nat_of_ascii c in
  ((9 <=? n)%nat && (n <=? 13)%nat) || (n =? 32)%nat.

Definition blank2 (a b : nat) : bool := (a =? 194)%nat && (b =? 160)%nat.

Definition blank3 (a b c : nat) : bool :=
  ((a =? 225) && (b =? 154) && (c =? 128))%nat
  || ((a =? 226)%nat && (b =? 128)%nat
      && (((128 <=? c) && (c <=? 138))%nat
          || (c =? 168) || (c =? 169) || (c =? 175))%nat)
  || ((a =? 226) && (b =? 129) && (c =? 159))%nat
  || ((a =? 227) && (b =? 128) && (c =? 128))%nat
  || ((a =? 239) && (b =? 187) && (c =? 191))%nat.

(** The text after one leading blank, if it starts with one. *)
Definition drop_blank (s : string) : option string :=
  match s with
  | EmptyString => None
  | String a r =>
      if is_space a then Some r
      else
        match r with
        | EmptyString => None
        | String b r2 =>
            if blank2 (nat_of_ascii a) (nat_of_ascii b) then Some r2
            else
              match r2 with
              | EmptyString => None
              | String c r3 =>
                  if blank3 (nat_of_ascii a) (nat_of_ascii b) (nat_of_ascii c)
                  then Some r3 else None
              end
        end
  end.

(** The text before one trailing blank, read on the reversed text. *)
Definition drop_blank_reversed (s : string) : option string :=
  match s with
  | EmptyString => None
  | String c r =>
      if is_space c then Some r
      else
        match r with
        | EmptyString => None
        | String b r2 =>
            if blank2 (nat_of_ascii b) (nat_of_ascii c) then Some r2
            else
              match r2 with
              | EmptyString => None
              | String a r3 =>
                  if blank3 (nat_of_ascii a) (nat_of_ascii b) (nat_of_ascii c)
                  then Some r3 else None
              end
        end
  end.

Fixpoint drop_while (drop : string -> option string) (fuel : nat) (s : string)
  : string :=
  match fuel with
  | O => s
  | S fuel' =>
      match drop s with
      | Some r => drop_while drop fuel' r
      | None => s
      end
  end.

Fixpoint reverse_onto (acc s : string) : string :=
  match s with
  | EmptyString => acc
  | String c r => reverse_onto (String c acc) r
  end.

Definition reverse (s : string) : string := reverse_onto EmptyString s.

Definition trim_start (s : string) : string :=
  drop_while drop_blank (String.length s) s.

Definition trim_end (s : string) : string :=
  reverse (drop_while drop_blank_reversed (String.length s) (reverse s)).

Definition trim (s : string) : string := trim_end (trim_start s).

(** *** [Number] on a string of digits and dots

    The only strings that the program hands to [Number] have been through
    [strip_non_price]; on those the StringNumericLiteral grammar leaves the
    empty string (value [0]), [digits], [digits.], [digits.digits] and
    [.digits]; anything else is [NaN]. *)

Fixpoint all_digits (s : string) : bool :=
  match s with
  | EmptyString => true
  | String c r => is_digit c && all_digits r
  end.

(** Splits at the first dot: the part before it and, when there is a dot,
    the part after it. *)
Fixpoint split_dot (s : string) : string * option string :=
  match s with
  | EmptyString => (EmptyString, None)
  | String c r =>
      if (nat_of_ascii c =? 46)%nat then (EmptyString, Some r)
      else let (a, b) := split_dot r in (String c a, b)
  end.

Fixpoint digits_value (acc : Z) (s : string) : Z :=
  match s with
  | EmptyString => acc
  | String c r => digits_value (10 * acc + (Z.of_nat (nat_of_ascii c) - 48)) r
  end.

(** The literal as an exact fraction [n / 10^k], when it is well formed. *)
Definition decimal_literal (s : string) : option (Z * Z) :=
  match split_dot s with
  | (a, None) =>
      if truthy_string a && all_digits a then Some (digits_value 0 a, 0%Z)
      else None
  | (a, Some b) =>
      if all_digits a && all_digits b && (truthy_string a || truthy_string b)
      then Some (digits_value 0 (a ++ b)%string, Z.of_nat (String.length b))
      else None
  end.

(** The binary64 number nearest to [n / d] (ties to even), through the
    division of the specification floats, which does not need its operands
    to fit a binary64 mantissa. *)
Definition round_ratio (n d : Z) : float :=
  match n, d with
  | Zpos p, Zpos q =>
      SF2Prim (SFdiv prec emax (S754_finite false p 0) (S754_finite false q 0))
  | _, _ => 0%float
  end.

Definition Number_ (s : string) : float :=
  match s with
  | EmptyString => 0%float
  | _ =>
      match decimal_literal s with
      | Some (n, k) => round_ratio n (10 ^ k)
      | None => PrimFloat.nan
      end
  end.

(** Template-literal rendering of an integer-valued number. *)
Definition string_of_Z (n : Z) : string := NilZero.string_of_int (Z.to_int n).

End JS.

(** ** Configuration *)

(** [WatchConfig.selectors] *)
Module selectors.
Record t : Type := {
  product : string;
  productAttribute : option string;
  productURL : option string;
  productName : string;
  outOfStockSelector : string;
  price : string
}.
End selectors.

Module WatchConfig.
Record t : Type := {
  store : string;
  url : string;
  refreshSeconds : option float;
  maxPrice : option float;
  expectedProductCount : Z;
  outOfStockText : option string;
  maxTabs : option Z;
  selectors : selectors.t
}.
End WatchConfig.

(** [watch-config.json] is not among the sources; the record lists the
    fields that [index.ts] reads from it, typed by how they are used. *)
Module MasterConfig.
Record t : Type := {
  defaultRefreshSeconds : float;
  defaultMaxPrice : float;
  errorTimeSeconds : float;
  successTimeSeconds : float;
  maxTabs : option Z
}.
End MasterConfig.

(** [notification-config.json] is not among the sources either; these are
    the fields that [index.ts] reads from it. *)
Module NotificationConfig.
Record t : Type := {
  gmail : string;
  password : string;
  recipients : list string
}.
End NotificationConfig.

(** ** Products *)

Module Product.

(** The [errors] field: absent, the list of field tags, or (on the record
    that stands for a page without products) a plain message. *)
Inductive errors_t : Type :=
| NoErrors
| Tags (l : list string)
| Message (s : string).

Record t : Type := {
  productName : JS.nullable string;
  productURL : JS.nullable string;
  outOfStock : JS.nullable bool;
  price : JS.nullable float;
  errors : errors_t
}.

(** [product.errors?.length] as a count; [undefined] compares false with
    every number, which is what the count [0] gives under [> 0]. *)
Definition errors_length (p : t) : nat :=
  match errors p with
  | NoErrors => 0
  | Tags l => List.length l
  | Message s => String.length s
  end.

(** The tags of a record ([[]] when the field is not an array). *)
Definition tags (p : t) : list string :=
  match errors p with
  | Tags l => l
  | _ => []
  end.

(** Whether the record carries the field tag [tag]. *)
Definition has_tag (tag : string) (p : t) : bool :=
  match errors p with
  | Tags l => existsb (String.eqb tag) l
  | _ => false
  end.

End Product.

(** ** The page as the evaluator sees it *)

Module DOM.

Record Element : Type := {
  textContent : string;
  (** [el.href]: a string on anchors, [undefined] elsewhere *)
  href : option string;
  (** [el[name]] when that is a string *)
  property : string -> option string
}.

(** One node matched by the product selector.  [product.querySelector]
    throws a [SyntaxError] on a text that is not a selector (the empty
    text, a text that starts with a combinator); that depends on the
    selector only, and is the same on every node of a page. *)
Record Node : Type := {
  (** whether [querySelector] throws on the selector *)
  rejects : string -> bool;
  (** the first descendant that matches a selector it accepts *)
  first_match : string -> option Element
}.

(** [product.querySelector(s)] for the blocks in which a thrown error and
    [null] end alike, in the [catch]: the element found, if any. *)
Definition querySelector (product : Node) (s : string) : option Element :=
  if rejects product s then None else first_match product s.

Record Document : Type := {
  querySelectorAll : string -> list Node
}.

End DOM.

(** ** class Watcher: the evaluator *)

Module Watcher.

Import JS.

Section Evaluator.

(** [text.match(RegExp(pattern, 'gi'))]: [None] when the constructor throws
    on the pattern, otherwise the matches (none when [match] gives [null]). *)
Variable RegExp_gi_match : string -> string -> option (list string).

Variable watchConfig : WatchConfig.t.
Variable MasterConfig : MasterConfig.t.

Let sel : selectors.t := WatchConfig.selectors watchConfig.

(** The four [try] blocks of [getProducts]; [None] is the [catch] side. *)

Definition try_productName (product : DOM.Node) : option string :=
  match DOM.querySelector product (selectors.productName sel) with
  | None => None
  | Some el =>
      match selectors.productAttribute sel with
      | Some attr =>
          if truthy_string attr then option_map trim (DOM.property el attr)
          else Some (trim (DOM.textContent el))
      | None => Some (trim (DOM.textContent el))
      end
  end.

Definition try_productURL (product : DOM.Node) : option (nullable string) :=
  if truthy_opt truthy_string (selectors.productURL sel) then
    match selectors.productURL sel with
    | Some s =>
        match DOM.querySelector product s with
        | None => None
        | Some el =>
            Some (match DOM.href el with Some h => Val h | None => Undefined end)
        end
    | None => None
    end
  else Some (Val (WatchConfig.url watchConfig)).

Definition try_outOfStock (product : DOM.Node) : option bool :=
  if DOM.rejects product (selectors.outOfStockSelector sel) then
    (* both branches call [querySelector] first *)
    None
  else
    let found := DOM.first_match product (selectors.outOfStockSelector sel) in
    if truthy_opt truthy_string (WatchConfig.outOfStockText watchConfig) then
      match WatchConfig.outOfStockText watchConfig, found with
      | Some pattern, Some el =>
          match RegExp_gi_match pattern (DOM.textContent el) with
          | None => None
          | Some ms => Some (0 <? List.length ms)%nat
          end
      | _, _ => Some false
      end
    else Some (match found with Some _ => true | None => false end).

Definition try_price (product : DOM.Node) : option float :=
  match DOM.querySelector product (selectors.price sel) with
  | None => None
  | Some el => Some (Number_ (strip_non_price (DOM.textContent el)))
  end.

(** A field keeps its initial [null] when its block threw. *)
Definition or_null {A} (o : option A) : nullable A :=
  match o with Some a => Val a | None => Null end.

Definition push_unless {A} (o : option A) (tag : string) : list string :=
  match o with Some _ => [] | None => [tag] end.

(** The body of [products.forEach]. *)
Definition extract (product : DOM.Node) : Product.t :=
  let n := try_productName product in
  let u := try_productURL product in
  let o := try_outOfStock product in
  let p := try_price product in
  let errors :=
    push_unless n "Product name" ++ push_unless u "Product URL"
    ++ push_unless o "Out of stock" ++ push_unless p "Price" in
  {| Product.productName := or_null n;
     Product.productURL := match u with Some v => v | None => Null end;
     Product.outOfStock := or_null o;
     Product.price := or_null p;
     Product.errors :=
       match errors with [] => Product.NoErrors | _ => Product.Tags errors end |}.

(** [{ errors: `Error loading page for ${store}.` }] *)
Definition load_error_record : Product.t :=
  {| Product.productName := Undefined;
     Product.productURL := Undefined;
     Product.outOfStock := Undefined;
     Product.price := Undefined;
     Product.errors :=
       Product.Message
         ("Error loading page for " ++ WatchConfig.store watchConfig ++ ".")%string |}.

Definition count_mismatch_message (found : nat) : string :=
  ("Did not find the expected number of results for "
   ++ WatchConfig.store watchConfig ++ ".  Expected "
   ++ string_of_Z (WatchConfig.expectedProductCount watchConfig)
   ++ ", found " ++ string_of_Z (Z.of_nat found) ++ ".")%string.

(** [p.errors = p.errors ? p.errors : []; p.errors.push(msg)]; on a string
    [push] is not a function, but no record that [extract] makes has one. *)
Definition push_error (msg : string) (p : Product.t) : Product.t :=
  {| Product.productName := Product.productName p;
     Product.productURL := Product.productURL p;
     Product.outOfStock := Product.outOfStock p;
     Product.price := Product.price p;
     Product.errors :=
       match Product.errors p with
       | Product.NoErrors => Product.Tags [msg]
       | Product.Tags l => Product.Tags (l ++ [msg])
       | Product.Message s => Product.Message s
       end |}.

(** [matches[matches.length-1]] updated in place. *)
Fixpoint update_last (f : Product.t -> Product.t) (l : list Product.t)
  : list Product.t :=
  match l with
  | [] => []
  | [p] => [f p]
  | p :: r => p :: update_last f r
  end.

(** "Make sure we have the expected number of results". *)
Definition check_count (matches : list Product.t) : list Product.t :=
  if (Z.of_nat (List.length matches)
      =? WatchConfig.expectedProductCount watchConfig)%Z
  then matches
  else
    match matches with
    | [] => [load_error_record]
    | _ => update_last (push_error (count_mismatch_message (List.length matches)))
                       matches
    end.

(** The function that [getProducts] evaluates in the page. *)
Definition getProducts (document : DOM.Document) : list Product.t :=
  check_count
    (map extract
       (DOM.querySelectorAll document (selectors.product sel))).

(** [errors(products)] *)
Definition errors (products : list Product.t) : list Product.t :=
  filter (fun product => (0 <? Product.errors_length product)%nat) products.

(** [this.watchConfig.maxPrice ? this.watchConfig.maxPrice
     : MasterConfig.defaultMaxPrice] *)
Definition priceCeiling : float :=
  match WatchConfig.maxPrice watchConfig with
  | Some m =>
      if truthy_number m then m else MasterConfig.defaultMaxPrice MasterConfig
  | None => MasterConfig.defaultMaxPrice MasterConfig
  end.

(** The predicate that [inStock] filters with. *)
Definition qualifies (product : Product.t) : bool :=
  negb (ToBoolean (Product.outOfStock product))
  && lt (ToNumber (Product.price product)) priceCeiling.

(** [inStock(products)] *)
Definition inStock (products : list Product.t) : list Product.t :=
  filter qualifies products.

(** *** What [page.evaluate] hands over

    The list is computed in the page and reaches the program as a JSON
    copy: strings, booleans, [null] and finite numbers arrive as they are,
    a key whose value is [undefined] is left out (and reads as [undefined]
    again), and a number that JSON cannot write, [NaN] or an infinity,
    arrives as [null].  (Negative zero is not a price that [Number] gives
    on digits and dots.) *)
Definition transport_number (x : float) : nullable float :=
  if PrimFloat.is_nan x || PrimFloat.is_infinity x then Null else Val x.

Definition transport (product : Product.t) : Product.t :=
  {| Product.productName := Product.productName product;
     Product.productURL := Product.productURL product;
     Product.outOfStock := Product.outOfStock product;
     Product.price :=
       match Product.price product with
       | Val x => transport_number x
       | v => v
       end;
     Product.errors := Product.errors product |}.

Definition received (products : list Product.t) : list Product.t :=
  map transport products.

(** *** One check: [checkPage], [loadPage], [screenshot]

    A check is sequential code with suspension points; what the browser
    answers at each of them is given by a record of responses, and the check
    is a computation over the watcher's own fields that emits the calls it
    makes on its collaborators. *)

(** [this.page]: the page object and whether [close] was called on it. *)
Record Page : Type := {
  id : nat;
  closed : bool
}.

(** The fields of the watcher that a check reads and writes; both are
    [undefined] until first assigned. *)
Record fields : Type := {
  page : option Page;
  handle : option float
}.

Inductive Event : Type :=
| NewPage (n : nat)
| Goto (url : string)
| Screenshot (type : string) (n : nat)
| SetTimeout (ms : float)
| Notify (products : list Product.t)
| Close (n : nat).

(** How the promise returned by [this.wait(watchConfig)] settles, if it
    does. *)
Inductive admission : Type :=
| Granted
| Rejected
| NeverReleased.

Record Responses : Type := {
  wait : admission;
  (** [browser.newPage()]: the new page, or a rejection *)
  newPage : option nat;
  goto_resolves : bool;
  waitForSelector_resolves : bool;
  (** [page.evaluate]: the document the function runs against, or a
      rejection *)
  evaluate : option DOM.Document;
  (** [page.screenshot] on an open page *)
  screenshot_resolves : bool
}.

(** How an [async] body ends: it returns, it throws (its promise rejects),
    or it stays suspended on a promise that never settles. *)
Inductive outcome (A : Type) : Type :=
| Returned (a : A)
| Thrown
| Suspended.
Arguments Returned {A} a.
Arguments Thrown {A}.
Arguments Suspended {A}.

Definition M (A : Type) : Type := fields -> list Event * fields * outcome A.

Definition ret {A} (a : A) : M A := fun s => ([], s, Returned a).

Definition bind {A B} (m : M A) (k : A -> M B) : M B :=
  fun s =>
    match m s with
    | (tr, s', Returned a) =>
        let '(tr', s'', o) := k a s' in (tr ++ tr', s'', o)
    | (tr, s', Thrown) => (tr, s', Thrown)
    | (tr, s', Suspended) => (tr, s', Suspended)
    end.

Notation "x <- m ;; k" := (bind m (fun x => k))
  (at level 61, m at next level, right associativity).
Notation "m ;; k" := (bind m (fun _ => k))
  (at level 61, right associativity).

Definition throw {A} : M A := fun s => ([], s, Thrown).
Definition suspend {A} : M A := fun s => ([], s, Suspended).
Definition emit (e : Event) : M unit := fun s => ([e], s, Returned tt).
Definition get_page : M (option Page) := fun s => ([], s, Returned (page s)).
Definition set_page (p : Page) : M unit :=
  fun s => ([], {| page := Some p; handle := handle s |}, Returned tt).
Definition set_handle (ms : float) : M unit :=
  fun s => ([], {| page := page s; handle := Some ms |}, Returned tt).

(** [try { m } catch (err) { }] with the result telling which side ran. *)
Definition attempt (m : M unit) : M bool :=
  fun s =>
    match m s with
    | (tr, s', Returned _) => (tr, s', Returned true)
    | (tr, s', Thrown) => (tr, s', Returned false)
    | (tr, s', Suspended) => (tr, s', Suspended)
    end.

Section Check.

Variable r : Responses.

(** [await this.page.screenshot(...)]: reading [screenshot] off an
    [undefined] page throws, a closed page rejects. *)
Definition screenshot (type : string) : M unit :=
  p <- get_page ;;
  match p with
  | None => throw
  | Some pg =>
      if closed pg then throw
      else if screenshot_resolves r then emit (Screenshot type (id pg))
      else throw
  end.

(** [this.page.close()], not awaited: only the property read can throw. *)
Definition close_page : M unit :=
  p <- get_page ;;
  match p with
  | None => throw
  | Some pg =>
      emit (Close (id pg)) ;;
      set_page {| id := id pg; closed := true |}
  end.

(** [this.handle = setTimeout(() => this.checkPage(), ms)] *)
Definition arm (ms : float) : M unit :=
  emit (SetTimeout ms) ;; set_handle ms.

Definition loadPage : M unit :=
  match wait r with
  | Granted => ret tt
  | Rejected => throw
  | NeverReleased => suspend
  end ;;
  match newPage r with
  | Some n => emit (NewPage n) ;; set_page {| id := n; closed := false |}
  | None => throw
  end ;;
  emit (Goto (WatchConfig.url watchConfig)) ;;
  if waitForSelector_resolves r then ret tt else throw.

(** [getProducts] as the check calls it: [this.page.evaluate(...)]; the
    program works on the copy that [page.evaluate] hands over. *)
Definition evaluate_getProducts : M (list Product.t) :=
  match evaluate r with
  | Some document => ret (received (getProducts document))
  | None => throw
  end.

Definition errorDelay : float :=
  (MasterConfig.errorTimeSeconds MasterConfig * 1000)%float.

Definition successDelay : float :=
  (MasterConfig.successTimeSeconds MasterConfig * 1000)%float.

(** [this.watchConfig.refreshSeconds ? this.watchConfig.refreshSeconds*1000
     : MasterConfig.defaultRefreshSeconds*1000] *)
Definition refreshDelay : float :=
  match WatchConfig.refreshSeconds watchConfig with
  | Some s =>
      if truthy_number s then (s * 1000)%float
      else (MasterConfig.defaultRefreshSeconds MasterConfig * 1000)%float
  | None => (MasterConfig.defaultRefreshSeconds MasterConfig * 1000)%float
  end.

(** "Process the results": the three branches after the evaluation. *)
Definition process (products : list Product.t) : M unit :=
  let inStock := inStock products in
  let errors := errors products in
  if (0 <? List.length errors)%nat then
    screenshot "error" ;; arm errorDelay
  else if (List.length inStock =? 0)%nat then
    arm refreshDelay
  else
    emit (Notify inStock) ;; screenshot "success" ;; arm successDelay.

Definition checkPage : M unit :=
  loaded <- attempt loadPage ;;
  if loaded then
    products <- evaluate_getProducts ;;
    process products ;;
    close_page
  else
    screenshot "error" ;;
    arm errorDelay ;;
    close_page.

End Check.

(** The calls that a computation made, whatever its outcome. *)
Definition trace {A} (x : list Event * fields * outcome A) : list Event :=
  fst (fst x).

(** The delays of the timers armed in a trace. *)
Definition timers (tr : list Event) : list float :=
  flat_map (fun e => match e with SetTimeout ms => [ms] | _ => [] end) tr.

(** The lists handed to [notify] in a trace. *)
Definition notifications (tr : list Event) : list (list Product.t) :=
  flat_map (fun e => match e with Notify l => [l] | _ => [] end) tr.

(** The browser grants the request, opens the page, lets the function be
    evaluated when the selectors showed up, and captures screenshots. *)
Definition cooperative (r : Responses) : bool :=
  match wait r, newPage r with
  | Granted, Some _ =>
      screenshot_resolves r
      && (negb (waitForSelector_resolves r)
          || match evaluate r with Some _ => true | None => false end)
  | _, _ => false
  end.

(** The target's loop: the first check and then one check per timer that
    fires, each against the browser's responses at that time; the result is
    the trace of every check that ran, for at most [n] checks. *)
Fixpoint run (n : nat) (responses : nat -> Responses) (k : nat) (s : fields)
  : list (list Event) :=
  match n with
  | O => []
  | S n' =>
      let '(tr, s', _) := checkPage (responses k) s in
      tr :: match timers tr with
            | [] => []
            | _ => run n' responses (S k) s'
            end
  end.

(** *** [notify]

    The options object handed to [sendMail]. *)
Record Mail : Type := {
  from : string;
  to : string;
  subject : string;
  text : string
}.

(** How [join] renders an element: [null] and [undefined] give the empty
    string. *)
Definition join_item (v : nullable string) : string :=
  match v with Val u => u | _ => EmptyString end.

(** [notify(products)]: the mail handed to the transporter, when the
    constructor made one. *)
Definition notify (transporter : bool) (NotificationConfig : NotificationConfig.t)
  (products : list Product.t) : option Mail :=
  if transporter then
    Some {| from := NotificationConfig.gmail NotificationConfig;
            to := join ", " (NotificationConfig.recipients NotificationConfig);
            subject := (WatchConfig.store watchConfig ++ " in Stock")%string;
            text := join newline
                      (map (fun product => join_item (Product.productURL product))
                           products) |}
  else None.

(** A watcher as the constructor leaves it. *)
Definition initial : fields := {| page := None; handle := None |}.

End Evaluator.

Arguments Returned {A} a.
Arguments Thrown {A}.
Arguments Suspended {A}.

End Watcher.

(** ** class Main: the tab gate *)

Module Main.

Import JS.

(** What the gate works on: the number of pages that [browser.pages()]
    reports (the browser's initial tab included), [this.queue] (each entry
    is the resolver of one pending [wait] promise, named by its request),
    and, to follow the callers, the requests whose promise has resolved but
    whose owner has not yet reached [browser.newPage()]. *)
Record system : Type := {
  pages : nat;
  queue : list nat;
  resolved : list nat
}.

Section Gate.

Variable MasterConfig : MasterConfig.t.

(** [MasterConfig.maxTabs ? MasterConfig.maxTabs : 10] *)
Definition tabCeiling : Z :=
  match MasterConfig.maxTabs MasterConfig with
  | Some n => if truthy_int n then n else 10%Z
  | None => 10%Z
  end.

(** The test of [wait]: queue the request? *)
Definition must_queue (s : system) : bool :=
  (1 <? List.length (queue s))%nat
  || (tabCeiling <=? Z.of_nat (pages s) - 1)%Z.

(** [wait(watchConfig)] for request [req]: the new state, and whether the
    promise resolves at once. *)
Definition wait (watchConfig : WatchConfig.t) (req : nat) (s : system)
  : system * bool :=
  if must_queue s then
    ({| pages := pages s; queue := queue s ++ [req]; resolved := resolved s |},
     false)
  else
    ({| pages := pages s; queue := queue s; resolved := resolved s ++ [req] |},
     true).

(** One run of the [setInterval] callback: the new state and the request
    released, if any. *)
Definition tick (s : system) : system * option nat :=
  match queue s with
  | req :: rest =>
      if (pages s =? 1)%nat then
        ({| pages := pages s; queue := rest; resolved := resolved s ++ [req] |},
         Some req)
      else (s, None)
  | [] => (s, None)
  end.

Fixpoint remove_first (req : nat) (l : list nat) : list nat :=
  match l with
  | [] => []
  | x :: r => if (x =? req)%nat then r else x :: remove_first req r
  end.

(** What can happen between two suspension points of the event loop. *)
Inductive action : Type :=
| Wait (watchConfig : WatchConfig.t) (req : nat)
| Tick
| OpenPage (req : nat)
| ClosePage.

Inductive Event : Type :=
| Immediate (req : nat)
| Queued (req : nat)
| Released (req : nat).

Definition step (a : action) (s : system) : system * list Event :=
  match a with
  | Wait watchConfig req =>
      let (s', now) := wait watchConfig req s in
      (s', [if now then Immediate req else Queued req])
  | Tick =>
      match tick s with
      | (s', Some req) => (s', [Released req])
      | (s', None) => (s', [])
      end
  | OpenPage req =>
      (* [browser.newPage()] by the owner of a resolved request *)
      if existsb (Nat.eqb req) (resolved s) then
        ({| pages := S (pages s); queue := queue s;
            resolved := remove_first req (resolved s) |}, [])
      else (s, [])
  | ClosePage =>
      (* [this.page.close()] by a watcher that holds a page *)
      if (1 <? pages s)%nat then
        ({| pages := Nat.pred (pages s); queue := queue s;
            resolved := resolved s |}, [])
      else (s, [])
  end.

Fixpoint steps (l : list action) (s : system) : system * list Event :=
  match l with
  | [] => (s, [])
  | a :: l' =>
      let (s1, e1) := step a s in
      let (s2, e2) := steps l' s1 in
      (s2, e1 ++ e2)
  end.

(** The same gate when nothing runs between the resolution of a request
    and its owner's [browser.newPage()]. *)
Inductive atomic_action : Type :=
| Acquire (watchConfig : WatchConfig.t) (req : nat)
| Reclaim
| Release.

Definition atomic_step (a : atomic_action) (s : system) : system :=
  match a with
  | Acquire watchConfig req =>
      let (s1, now) := wait watchConfig req s in
      if now then fst (step (OpenPage req) s1) else s1
  | Reclaim =>
      match tick s with
      | (s1, Some req) => fst (step (OpenPage req) s1)
      | (s1, None) => s1
      end
  | Release => fst (step ClosePage s)
  end.

End Gate.

(** *** [init]: which watches are created, and when

    [MasterConfig.watches] and [MasterConfig.disable] are read only here
    and are taken as arguments. *)

(** [disable.find(disable => disable === store)], negated: the found
    element is the store name itself, and an empty name is falsy. *)
Definition not_found (disable : list string) (store : string) : bool :=
  match find (String.eqb store) disable with
  | Some found => negb (truthy_string found)
  | None => true
  end.

(** The callback of [filter]. *)
Definition enabled (disable : option (list string))
  (watchConfig : WatchConfig.t) : bool :=
  match disable with
  | Some d =>
      if (0 <? List.length d)%nat then not_found d (WatchConfig.store watchConfig)
      else true
  | None => true
  end.

(** [forEach((watchConfig, index) => setTimeout(..., 5*1000*index))] *)
Fixpoint stagger (index : Z) (l : list WatchConfig.t)
  : list (Z * WatchConfig.t) :=
  match l with
  | [] => []
  | watchConfig :: r => (5 * 1000 * index, watchConfig)%Z :: stagger (index + 1) r
  end.

(** The timers that [init] sets: the delay in milliseconds and the target
    whose watcher is constructed when it fires. *)
Definition init (watches : list WatchConfig.t) (disable : option (list string))
  : list (Z * WatchConfig.t) :=
  stagger 0 (filter (enabled disable) watches).

(** The browser right after launch: its one initial tab, nothing queued. *)
Definition idle : system := {| pages := 1; queue := []; resolved := [] |}.

Definition queued_of (l : list Event) : list nat :=
  flat_map (fun e => match e with Queued r => [r] | _ => [] end) l.

Definition released_of (l : list Event) : list nat :=
  flat_map (fun e => match e with Released r => [r] | _ => [] end) l.

(** Pages open beyond the browser's initial tab. *)
Definition open_contexts (s : system) : Z := Z.of_nat (pages s) - 1.

End Main.

(** ** The spec's wording, where it differs from the code's *)

Module Spec.

(** "the effective ceiling [target.maxPrice ?? global.defaultMaxPrice]" *)
Definition priceCeiling (watchConfig : WatchConfig.t) (MasterConfig : MasterConfig.t)
  : float :=
  match WatchConfig.maxPrice watchConfig with
  | Some m => m
  | None => MasterConfig.defaultMaxPrice MasterConfig
  end.

(** "[target.refreshSeconds ?? global.defaultRefreshSeconds]", in
    milliseconds like the code's delays. *)
Definition refreshDelay (watchConfig : WatchConfig.t) (MasterConfig : MasterConfig.t)
  : float :=
  match WatchConfig.refreshSeconds watchConfig with
  | Some s => (s * 1000)%float
  | None => (MasterConfig.defaultRefreshSeconds MasterConfig * 1000)%float
  end.

(** "the delay before the next check is chosen exactly by the outcome
    classification" *)
Definition nextDelay (watchConfig : WatchConfig.t) (MasterConfig : MasterConfig.t)
  (products : list Product.t) : float :=
  match Watcher.errors products with
  | _ :: _ => Watcher.errorDelay MasterConfig
  | [] =>
      match Watcher.inStock watchConfig MasterConfig products with
      | [] => refreshDelay watchConfig MasterConfig
      | _ :: _ => Watcher.successDelay MasterConfig
      end
  end.

End Spec.

(** ** A sample target and sample pages *)

Module Sample.

Definition sels : selectors.t :=
  {| selectors.product := ".item";
     selectors.productAttribute := None;
     selectors.productURL := None;
     selectors.productName := ".name";
     selectors.outOfStockSelector := ".sold-out";
     selectors.price := ".price" |}.

(** The target [Acme] with the given optional fields. *)
Definition acme (refreshSeconds maxPrice : option float) (expected : Z)
  : WatchConfig.t :=
  {| WatchConfig.store := "Acme";
     WatchConfig.url := "https://acme.example/rtx-3080";
     WatchConfig.refreshSeconds := refreshSeconds;
     WatchConfig.maxPrice := maxPrice;
     WatchConfig.expectedProductCount := expected;
     WatchConfig.outOfStockText := None;
     WatchConfig.maxTabs := Some 2%Z;
     WatchConfig.selectors := sels |}.

Definition master (maxTabs : option Z) : MasterConfig.t :=
  {| MasterConfig.defaultRefreshSeconds := 60%float;
     MasterConfig.defaultMaxPrice := 500%float;
     MasterConfig.errorTimeSeconds := 30%float;
     MasterConfig.successTimeSeconds := 300%float;
     MasterConfig.maxTabs := maxTabs |}.

Definition element (text : string) : DOM.Element :=
  {| DOM.textContent := text; DOM.href := None; DOM.property := fun _ => None |}.

(** A product node given by the text of the elements it contains; of the
    selectors, it rejects the empty one. *)
Definition node (children : list (string * string)) : DOM.Node :=
  {| DOM.rejects := fun s =>
       match s with EmptyString => true | String _ _ => false end;
     DOM.first_match := fun s =>
       option_map (fun c => element (snd c))
                  (find (fun c => String.eqb (fst c) s) children) |}.

Definition document (nodes : list DOM.Node) : DOM.Document :=
  {| DOM.querySelectorAll := fun s =>
       if String.eqb s ".item" then nodes else [] |}.

(** No target of the samples sets [outOfStockText], so the pattern engine
    is never consulted. *)
Definition no_patterns : string -> string -> option (list string) :=
  fun _ _ => None.

(** A browser that answers every call of one check. *)
Definition responses (n : nat) (doc : DOM.Document) : Watcher.Responses :=
  {| Watcher.wait := Watcher.Granted;
     Watcher.newPage := Some n;
     Watcher.goto_resolves := true;
     Watcher.waitForSelector_resolves := true;
     Watcher.evaluate := Some doc;
     Watcher.screenshot_resolves := true |}.

(** A browser whose [newPage] rejects. *)
Definition no_page : Watcher.Responses :=
  {| Watcher.wait := Watcher.Granted;
     Watcher.newPage := None;
     Watcher.goto_resolves := true;
     Watcher.waitForSelector_resolves := true;
     Watcher.evaluate := Some (document []);
     Watcher.screenshot_resolves := true |}.

(** A page whose selectors never show up and that cannot be captured. *)
Definition stuck_page (n : nat) : Watcher.Responses :=
  {| Watcher.wait := Watcher.Granted;
     Watcher.newPage := Some n;
     Watcher.goto_resolves := false;
     Watcher.waitForSelector_resolves := false;
     Watcher.evaluate := None;
     Watcher.screenshot_resolves := false |}.

(** Priced at $100, in stock, but without a name element. *)
Definition nameless : DOM.Node := node [(".price", "$100")].

(** Named and in stock, but without a price element. *)
Definition priceless : DOM.Node := node [(".name", "RTX 3080")].

(** A price text with two decimal points. *)
Definition garbled : DOM.Node :=
  node [(".name", "RTX 3080"); (".price", "$1.2.3")].

(** A price element without any digit. *)
Definition call_for_price : DOM.Node :=
  node [(".name", "RTX 3080"); (".price", "Call for price")].

Definition priced (text : string) : DOM.Node :=
  node [(".name", "RTX 3080"); (".price", text)].

Definition sold_out : DOM.Node :=
  node [(".name", "RTX 3080"); (".price", "$699.99"); (".sold-out", "Sold out")].

(** A target that differs from [Acme] by its store name only. *)
Definition target (store : string) : WatchConfig.t :=
  {| WatchConfig.store := store;
     WatchConfig.url := "https://acme.example/rtx-3080";
     WatchConfig.refreshSeconds := None;
     WatchConfig.maxPrice := None;
     WatchConfig.expectedProductCount := 1;
     WatchConfig.outOfStockText := None;
     WatchConfig.maxTabs := None;
     WatchConfig.selectors := sels |}.

Definition mailbox : NotificationConfig.t :=
  {| NotificationConfig.gmail := "watcher@example.com";
     NotificationConfig.password := "secret";
     NotificationConfig.recipients := ["a@example.com"; "b@example.com"] |}.

End Sample.

(** * Properties *)

(** ** Comparisons of binary64 numbers *)

Lemma lt_irrefl (x : float) : JS.lt x x = false.
Proof.
  unfold JS.lt. rewrite ltb_spec. unfold SFltb, SFcompare.
  destruct (Prim2SF x) as [sg | sg | | sg m e]; try reflexivity.
  - destruct sg; reflexivity.
  - destruct sg; rewrite Z.compare_refl, Pos.compare_cont_refl; reflexivity.
Qed.

Lemma lt_nan_l (y : float) : JS.lt PrimFloat.nan y = false.
Proof.
  unfold JS.lt. rewrite ltb_spec.
  replace (Prim2SF PrimFloat.nan) with S754_nan by reflexivity.
  reflexivity.
Qed.

(** ** The two selections *)

Section Selections.

Variable RegExp_gi_match : string -> string -> option (list string).
Variable watchConfig : WatchConfig.t.
Variable MasterConfig : MasterConfig.t.

Local Abbreviation getProducts := (Watcher.getProducts RegExp_gi_match watchConfig).
Local Abbreviation extract := (Watcher.extract RegExp_gi_match watchConfig).
Local Abbreviation inStock := (Watcher.inStock watchConfig MasterConfig).
Local Abbreviation qualifies := (Watcher.qualifies watchConfig MasterConfig).
Local Abbreviation checkPage := (Watcher.checkPage RegExp_gi_match watchConfig MasterConfig).

Lemma In_inStock (p : Product.t) (l : list Product.t) :
  In p (inStock l) <-> In p l /\ qualifies p = true.
Proof. unfold Watcher.inStock. apply filter_In. Qed.

Lemma In_errors (p : Product.t) (l : list Product.t) :
  In p (Watcher.errors l) <-> In p l /\ (0 < Product.errors_length p)%nat.
Proof.
  unfold Watcher.errors. rewrite filter_In, Nat.ltb_lt. reflexivity.
Qed.

Lemma errors_nil_clean (l : list Product.t) (p : Product.t) :
  (0 <? List.length (Watcher.errors l))%nat = false ->
  In p l -> Product.errors_length p = 0%nat.
Proof.
  intros Hlen Hin. apply Nat.ltb_ge in Hlen.
  destruct (Product.errors_length p) as [|k] eqn:E; [reflexivity|].
  assert (Hp : In p (Watcher.errors l)) by (apply In_errors; split; [assumption | lia]).
  destruct (Watcher.errors l); [contradiction | simpl in Hlen; lia].
Qed.

(** What a check hands to [notify], read off the code branch by branch. *)
Lemma checkPage_notifications (r : Watcher.Responses) (s : Watcher.fields) :
  Watcher.notifications (Watcher.trace (checkPage r s)) =
  match Watcher.wait r, Watcher.newPage r, Watcher.evaluate r with
  | Watcher.Granted, Some _, Some doc =>
      let products := Watcher.received (getProducts doc) in
      if Watcher.waitForSelector_resolves r
         && negb (0 <? List.length (Watcher.errors products))%nat
         && negb (List.length (inStock products) =? 0)%nat
      then [inStock products] else []
  | _, _, _ => []
  end.
Proof.
  destruct r as [w np g ws ev ss]; destruct s as [pg h].
  unfold Watcher.checkPage, Watcher.loadPage, Watcher.process,
    Watcher.evaluate_getProducts, Watcher.screenshot, Watcher.close_page,
    Watcher.arm, Watcher.attempt, Watcher.bind, Watcher.trace; simpl.
  destruct w, np as [n|], ws, ev as [doc|]; simpl;
    try (destruct pg as [[i c]|]; simpl; try destruct c; simpl;
         try destruct ss; reflexivity).
  destruct (0 <? List.length (Watcher.errors (Watcher.received (getProducts doc))))%nat; simpl.
  - destruct ss; reflexivity.
  - destruct (List.length (inStock (Watcher.received (getProducts doc))) =? 0)%nat; simpl;
      [reflexivity | destruct ss; reflexivity].
Qed.

(** Every list handed to [notify] is an [inStock] selection taken while
    the [errors] selection was empty. *)
Lemma notified_clean (r : Watcher.Responses) (s : Watcher.fields)
  (l : list Product.t) (p : Product.t) :
  In l (Watcher.notifications (Watcher.trace (checkPage r s))) -> In p l ->
  qualifies p = true /\ Product.errors_length p = 0%nat.
Proof.
  rewrite checkPage_notifications.
  destruct (Watcher.wait r); try contradiction.
  destruct (Watcher.newPage r); try contradiction.
  destruct (Watcher.evaluate r) as [doc|]; try contradiction.
  cbv zeta.
  destruct (Watcher.waitForSelector_resolves r); simpl; try contradiction.
  destruct (0 <? List.length (Watcher.errors (Watcher.received (getProducts doc))))%nat eqn:He;
    simpl; try contradiction.
  destruct (List.length (inStock (Watcher.received (getProducts doc))) =? 0)%nat; simpl;
    try contradiction.
  intros [<- | []] Hp. apply In_inStock in Hp. destruct Hp as [Hin Hq].
  split; [assumption | exact (errors_nil_clean _ _ He Hin)].
Qed.

(** *** What [getProducts] returns *)

Lemma In_update_last (f : Product.t -> Product.t) (l : list Product.t)
  (p : Product.t) :
  In p (Watcher.update_last f l) -> In p l \/ exists q, In q l /\ p = f q.
Proof.
  induction l as [|a l IH]; simpl; [tauto|].
  destruct l as [|b l'].
  - intros [<- | []]. right. exists a. simpl. auto.
  - intros [<- | H]; [left; simpl; auto|].
    destruct (IH H) as [H1 | [q [H1 H2]]].
    + left. right. exact H1.
    + right. exists q. split; [right; exact H1 | exact H2].
Qed.

(** A returned record is an extracted one, an extracted one with the
    count message pushed, or the record of a page without products. *)
Lemma In_getProducts (doc : DOM.Document) (p : Product.t) :
  In p (getProducts doc) ->
  (exists node, p = extract node)
  \/ (exists node n,
        p = Watcher.push_error (Watcher.count_mismatch_message watchConfig n)
              (extract node))
  \/ p = Watcher.load_error_record watchConfig.
Proof.
  unfold Watcher.getProducts, Watcher.check_count.
  set (nodes := DOM.querySelectorAll doc _).
  assert (Hmap : forall q, In q (map extract nodes) -> exists node, q = extract node).
  { intros q Hq. apply in_map_iff in Hq. destruct Hq as [node [<- _]]. eauto. }
  destruct (_ =? _)%Z.
  - intro H. left. auto.
  - destruct (map extract nodes) as [|a l] eqn:E.
    + intros [<- | []]. right. right. reflexivity.
    + intro H. apply In_update_last in H.
      destruct H as [H | [q [Hq ->]]].
      * left. auto.
      * right. left. destruct (Hmap q Hq) as [node ->]. eauto.
Qed.

Lemma extract_price (node : DOM.Node) :
  Product.price (extract node)
  = Watcher.or_null (Watcher.try_price watchConfig node).
Proof. reflexivity. Qed.

(** The [Price] tag is pushed exactly by the [catch] of the price block. *)
Lemma extract_price_tag (node : DOM.Node) :
  Product.has_tag "Price" (extract node)
  = match Watcher.try_price watchConfig node with
    | None => true
    | Some _ => false
    end.
Proof.
  unfold Product.has_tag, Watcher.extract; simpl.
  destruct (Watcher.try_productName watchConfig node),
    (Watcher.try_productURL watchConfig node),
    (Watcher.try_outOfStock RegExp_gi_match watchConfig node),
    (Watcher.try_price watchConfig node); reflexivity.
Qed.

Lemma push_count_message_price_tag (n : nat) (p : Product.t) :
  Product.has_tag "Price"
    (Watcher.push_error (Watcher.count_mismatch_message watchConfig n) p)
  = Product.has_tag "Price" p.
Proof.
  unfold Product.has_tag, Watcher.push_error; simpl.
  destruct (Product.errors p) as [|l|m]; simpl; try reflexivity.
  rewrite existsb_app. simpl. rewrite !orb_false_r. reflexivity.
Qed.

(** A tagged record of a result has the price [null]. *)
Lemma price_tag_null (doc : DOM.Document) (p : Product.t) :
  In p (getProducts doc) -> Product.has_tag "Price" p = true ->
  Product.price p = JS.Null.
Proof.
  intros Hin Htag.
  destruct (In_getProducts doc p Hin) as [[node ->] | [[node [n ->]] | ->]].
  - rewrite extract_price_tag in Htag. rewrite extract_price.
    destruct (Watcher.try_price watchConfig node); [discriminate | reflexivity].
  - rewrite push_count_message_price_tag, extract_price_tag in Htag.
    unfold Watcher.push_error. cbn [Product.price]. rewrite extract_price.
    destruct (Watcher.try_price watchConfig node); [discriminate | reflexivity].
  - discriminate.
Qed.

Lemma has_tag_errors_length (tag : string) (p : Product.t) :
  Product.has_tag tag p = true -> (0 < Product.errors_length p)%nat.
Proof.
  unfold Product.has_tag, Product.errors_length.
  destruct (Product.errors p) as [|l|m]; try discriminate.
  destruct l; [discriminate | simpl; lia].
Qed.

(** A record without a [price] field, like the one that stands for a page
    without products, never qualifies: [undefined] compares as [NaN]. *)
Lemma undefined_price_never_qualifies (p : Product.t) :
  Product.price p = JS.Undefined -> qualifies p = false.
Proof.
  unfold Watcher.qualifies. intros ->. simpl.
  rewrite lt_nan_l. apply andb_false_r.
Qed.

(** C1 (as amended): the [inStock] selection keeps exactly the records
    whose [outOfStock] is falsy and whose price is below the ceiling,
    whatever their error tags, so one record can be returned by both
    selections; but the list that a check hands to the notifier is an
    [inStock] selection taken while the [errors] selection was empty, so no
    record with an error tag is ever notified as in stock. *)
Theorem inStock_ignores_tags_notify_is_gated :
  (forall p l, In p (inStock l) <-> In p l /\ qualifies p = true)
  /\ (forall r s l p,
        In l (Watcher.notifications (Watcher.trace (checkPage r s))) ->
        In p l ->
        Product.errors_length p = 0%nat
        /\ forall products, ~ In p (Watcher.errors products)).
Proof.
  split; [exact In_inStock|].
  intros r s l p Hl Hp.
  destruct (notified_clean r s l p Hl Hp) as [_ H0].
  split; [exact H0|].
  intros products H. apply In_errors in H. lia.
Qed.

(** C2 (as amended): a record whose price could not be resolved carries
    the [Price] tag and the price [null], and [null] compares as [0]: the
    [inStock] selection returns such a record exactly when its [outOfStock]
    is falsy and the ceiling is positive.  It is never handed to the
    notifier. *)
Theorem unresolved_price_compares_as_zero (doc : DOM.Document) (p : Product.t) :
  In p (getProducts doc) -> Product.has_tag "Price" p = true ->
  Product.price p = JS.Null
  /\ (forall l,
        In p (inStock l) <->
        In p l /\ JS.ToBoolean (Product.outOfStock p) = false
        /\ JS.lt 0 (Watcher.priceCeiling watchConfig MasterConfig) = true)
  /\ (forall r s l,
        In l (Watcher.notifications (Watcher.trace (checkPage r s))) ->
        ~ In p l).
Proof.
  intros Hin Htag.
  pose proof (price_tag_null doc p Hin Htag) as Hnull.
  split; [exact Hnull|]. split.
  - intro l. rewrite In_inStock. unfold Watcher.qualifies.
    rewrite Hnull. simpl. rewrite andb_true_iff, negb_true_iff. tauto.
  - intros r s l Hl Hp.
    destruct (notified_clean r s l p Hl Hp) as [_ H0].
    apply has_tag_errors_length in Htag. lia.
Qed.

End Selections.

(** C1, counterexample: a product without a name element, priced at $100
    and not sold out, is returned by both selections. *)
Lemma inStock_and_errors_overlap :
  ~ (forall RegExp_gi_match watchConfig MasterConfig doc p,
       In p (Watcher.inStock watchConfig MasterConfig
               (Watcher.getProducts RegExp_gi_match watchConfig doc)) ->
       ~ In p (Watcher.errors
                 (Watcher.getProducts RegExp_gi_match watchConfig doc))).
Proof.
  intro H.
  apply (H Sample.no_patterns (Sample.acme None None 1) (Sample.master None)
           (Sample.document [Sample.nameless])
           (Watcher.extract Sample.no_patterns (Sample.acme None None 1)
              Sample.nameless));
    vm_compute; left; reflexivity.
Qed.

Lemma inStock_ignores_tags_notify_is_gated_witness :
  let cfg := Sample.acme None None 1 in
  let p := Watcher.extract Sample.no_patterns cfg (Sample.priced "$499.99") in
  Product.errors_length p = 0%nat
  /\ forall products, ~ In p (Watcher.errors products).
Proof.
  intros cfg p.
  apply (proj2 (inStock_ignores_tags_notify_is_gated Sample.no_patterns cfg
                  (Sample.master None))
           (Sample.responses 1 (Sample.document [Sample.priced "$499.99"]))
           Watcher.initial [p] p);
    vm_compute; left; reflexivity.
Defined.

(** C2, counterexample: a product without a price element, not sold out,
    carries the [Price] tag and is returned by [inStock] under the default
    ceiling of 500. *)
Lemma unresolved_price_is_selected :
  ~ (forall RegExp_gi_match watchConfig MasterConfig doc p,
       In p (Watcher.getProducts RegExp_gi_match watchConfig doc) ->
       Product.has_tag "Price" p = true ->
       ~ In p (Watcher.inStock watchConfig MasterConfig
                 (Watcher.getProducts RegExp_gi_match watchConfig doc))).
Proof.
  intro H.
  apply (H Sample.no_patterns (Sample.acme None None 1) (Sample.master None)
           (Sample.document [Sample.priceless])
           (Watcher.extract Sample.no_patterns (Sample.acme None None 1)
              Sample.priceless));
    vm_compute; try reflexivity; left; reflexivity.
Qed.

Lemma unresolved_price_compares_as_zero_witness :
  let cfg := Sample.acme None None 1 in
  let p := Watcher.extract Sample.no_patterns cfg Sample.priceless in
  Product.price p = JS.Null
  /\ (forall l,
        In p (Watcher.inStock cfg (Sample.master None) l) <->
        In p l /\ JS.ToBoolean (Product.outOfStock p) = false
        /\ JS.lt 0 (Watcher.priceCeiling cfg (Sample.master None)) = true)
  /\ (forall r s l,
        In l (Watcher.notifications
                (Watcher.trace
                   (Watcher.checkPage Sample.no_patterns cfg
                      (Sample.master None) r s))) ->
        ~ In p l).
Proof.
  intros cfg p.
  apply (unresolved_price_compares_as_zero Sample.no_patterns cfg
           (Sample.master None) (Sample.document [Sample.priceless]) p).
  - vm_compute. left. reflexivity.
  - vm_compute. reflexivity.
Defined.

(** ** The evaluator, field by field *)

Section Fields.

Variable RegExp_gi_match : string -> string -> option (list string).
Variable watchConfig : WatchConfig.t.
Variable MasterConfig : MasterConfig.t.

Local Abbreviation getProducts := (Watcher.getProducts RegExp_gi_match watchConfig).
Local Abbreviation extract := (Watcher.extract RegExp_gi_match watchConfig).
Local Abbreviation inStock := (Watcher.inStock watchConfig MasterConfig).
Local Abbreviation qualifies := (Watcher.qualifies watchConfig MasterConfig).
Local Abbreviation priceCeiling := (Watcher.priceCeiling watchConfig MasterConfig).
Local Abbreviation price_selector :=
  (selectors.price (WatchConfig.selectors watchConfig)).

Lemma strip_nothing_kept (s : string) :
  JS.no_price_chars s = true -> JS.strip_non_price s = EmptyString.
Proof.
  induction s as [|c s IH]; simpl; [reflexivity|].
  destruct (JS.is_digit_or_dot c); simpl; [discriminate | exact IH].
Qed.

Lemma try_price_found (node : DOM.Node) (el : DOM.Element) :
  DOM.querySelector node price_selector = Some el ->
  Watcher.try_price watchConfig node
  = Some (JS.Number_ (JS.strip_non_price (DOM.textContent el))).
Proof. unfold Watcher.try_price. intros ->. reflexivity. Qed.


(** C4 (as amended): a record qualifies only if its price ([null] read as
    [0]) is strictly below the effective ceiling, which is
    [target.maxPrice] when that is set and truthy (not [0], not [NaN]) and
    the global default otherwise, in particular when it is absent; a record
    priced exactly at the ceiling never qualifies; a record priced at
    [ceiling - 0.01] whose [outOfStock] is falsy qualifies whenever that
    subtraction is not absorbed by rounding. *)
Theorem price_strictly_below_ceiling (p : Product.t) :
  (qualifies p = true ->
   JS.lt (JS.ToNumber (Product.price p)) priceCeiling = true)
  /\ (Product.price p = JS.Val priceCeiling -> qualifies p = false)
  /\ (JS.ToBoolean (Product.outOfStock p) = false ->
      Product.price p = JS.Val (priceCeiling - 0.01)%float ->
      JS.lt (priceCeiling - 0.01)%float priceCeiling = true ->
      qualifies p = true)
  /\ (WatchConfig.maxPrice watchConfig = None ->
      priceCeiling = MasterConfig.defaultMaxPrice MasterConfig)
  /\ (forall m, WatchConfig.maxPrice watchConfig = Some m ->
      priceCeiling
      = if JS.truthy_number m then m
        else MasterConfig.defaultMaxPrice MasterConfig).
Proof.
  unfold Watcher.qualifies. repeat split.
  - intro H. apply andb_true_iff in H. exact (proj2 H).
  - intros ->. simpl. rewrite lt_irrefl. apply andb_false_r.
  - intros Ho -> Hlt. simpl. rewrite Ho, Hlt. reflexivity.
  - unfold Watcher.priceCeiling. intros ->. reflexivity.
  - unfold Watcher.priceCeiling. intros m ->. reflexivity.
Qed.


(** C10: when the price element exists and its text has no digit and no
    decimal point, the record gets the numeric price [0] and no [Price]
    tag, and with a falsy [outOfStock] it is selected by [inStock] under
    every positive effective ceiling. *)
Theorem digitless_price_is_zero (node : DOM.Node) (el : DOM.Element) :
  DOM.querySelector node price_selector = Some el ->
  JS.no_price_chars (DOM.textContent el) = true ->
  Product.price (extract node) = JS.Val 0%float
  /\ Product.has_tag "Price" (extract node) = false
  /\ (JS.ToBoolean (Product.outOfStock (extract node)) = false ->
      JS.lt 0 priceCeiling = true ->
      qualifies (extract node) = true
      /\ forall l, In (extract node) l -> In (extract node) (inStock l)).
Proof.
  intros Hel Htext.
  assert (Hp : Product.price (extract node) = JS.Val 0%float).
  { rewrite extract_price, (try_price_found node el Hel),
      (strip_nothing_kept _ Htext). reflexivity. }
  split; [exact Hp|]. split.
  - rewrite extract_price_tag, (try_price_found node el Hel). reflexivity.
  - intros Ho Hc.
    assert (Hq : qualifies (extract node) = true).
    { unfold Watcher.qualifies. rewrite Hp, Ho. simpl. exact Hc. }
    split; [exact Hq|].
    intros l Hin. apply In_inStock. split; assumption.
Qed.

(** *** The count of products *)

Lemma update_last_snoc (f : Product.t -> Product.t) (front : list Product.t)
  (last : Product.t) :
  Watcher.update_last f (front ++ [last]) = front ++ [f last].
Proof.
  induction front as [|a front IH]; simpl; [reflexivity|].
  rewrite IH. destruct (front ++ [last]) eqn:E; [|reflexivity].
  destruct front; discriminate.
Qed.

Lemma extract_errors_tags (node : DOM.Node) :
  Product.errors (extract node) = Product.NoErrors
  \/ Product.errors (extract node) = Product.Tags (Product.tags (extract node)).
Proof.
  unfold Product.tags, Watcher.extract; simpl.
  destruct (_ ++ _); [left | right]; reflexivity.
Qed.

Lemma check_count_snoc (front : list Product.t) (last : Product.t) :
  Z.of_nat (List.length (front ++ [last]))
  <> WatchConfig.expectedProductCount watchConfig ->
  Watcher.check_count watchConfig (front ++ [last])
  = front
    ++ [Watcher.push_error
          (Watcher.count_mismatch_message watchConfig
             (List.length (front ++ [last]))) last].
Proof.
  intro Hne. unfold Watcher.check_count.
  destruct (Z.eqb_spec (Z.of_nat (List.length (front ++ [last])))
              (WatchConfig.expectedProductCount watchConfig)) as [E|_];
    [contradiction|].
  rewrite <- update_last_snoc.
  destruct (front ++ [last]) eqn:E; [|reflexivity].
  destruct front; discriminate.
Qed.

(** C8: when the number of extracted items differs from
    [expectedProductCount], a page without items gives exactly the one
    record that stands for the failed page (and that record counts as an
    error); otherwise the count message is appended to the tags of the last
    extracted record, every other record and every other field stays as
    extracted, and no record is added. *)
Theorem count_mismatch_handling (doc : DOM.Document) :
  let nodes :=
    DOM.querySelectorAll doc
      (selectors.product (WatchConfig.selectors watchConfig)) in
  Z.of_nat (List.length nodes) <> WatchConfig.expectedProductCount watchConfig ->
  match nodes with
  | [] =>
      getProducts doc = [Watcher.load_error_record watchConfig]
      /\ Watcher.errors (getProducts doc)
         = [Watcher.load_error_record watchConfig]
  | _ :: _ =>
      exists front last,
        nodes = front ++ [last]
        /\ let message :=
             Watcher.count_mismatch_message watchConfig (List.length nodes) in
           let marked := Watcher.push_error message (extract last) in
           getProducts doc = map extract front ++ [marked]
           /\ List.length (getProducts doc) = List.length nodes
           /\ Product.tags marked = Product.tags (extract last) ++ [message]
           /\ Product.errors marked = Product.Tags (Product.tags marked)
           /\ Product.productName marked = Product.productName (extract last)
           /\ Product.productURL marked = Product.productURL (extract last)
           /\ Product.outOfStock marked = Product.outOfStock (extract last)
           /\ Product.price marked = Product.price (extract last)
  end.
Proof.
  intros nodes Hne. unfold Watcher.getProducts. fold nodes.
  destruct nodes as [|a rest] eqn:En.
  - unfold Watcher.check_count. simpl map. simpl List.length.
    change (Z.of_nat 0) with 0%Z in *.
    destruct (Z.eqb_spec 0 (WatchConfig.expectedProductCount watchConfig))
      as [E|_]; [contradiction|].
    split; reflexivity.
  - destruct (exists_last (l := a :: rest)) as [front [last Hl]];
      [discriminate|].
    exists front, last. split; [exact Hl|].
    assert (Hlen : List.length (map extract front ++ [extract last])
                   = List.length (a :: rest))
      by (rewrite Hl, !length_app, length_map; reflexivity).
    assert (Hget : Watcher.check_count watchConfig (map extract (a :: rest))
                   = map extract front
                     ++ [Watcher.push_error
                           (Watcher.count_mismatch_message watchConfig
                              (List.length (a :: rest))) (extract last)]).
    { replace (map extract (a :: rest))
        with (map extract front ++ [extract last])
        by (rewrite Hl, map_app; reflexivity).
      rewrite check_count_snoc; rewrite Hlen; [reflexivity | exact Hne]. }
    cbv zeta. rewrite Hget.
    split; [reflexivity|]. split.
    { rewrite length_app. simpl List.length at 2.
      rewrite <- Hlen, length_app. reflexivity. }
    unfold Product.tags, Watcher.push_error; cbn [Product.errors
      Product.productName Product.productURL Product.outOfStock Product.price].
    destruct (extract_errors_tags last) as [H | H]; rewrite H;
      repeat split; reflexivity.
Qed.

End Fields.

(** C4, counterexample: with [maxPrice] set to [0] the code falls back to
    the default ceiling of 500, so a product priced at $100 qualifies
    although 100 is not below [0 ?? 500 = 0]. *)
Lemma zero_maxPrice_falls_back_to_default :
  ~ (forall watchConfig MasterConfig p,
       Watcher.qualifies watchConfig MasterConfig p = true ->
       JS.lt (JS.ToNumber (Product.price p))
         (Spec.priceCeiling watchConfig MasterConfig) = true).
Proof.
  intro H.
  specialize (H (Sample.acme None (Some 0%float) 1) (Sample.master None)
                (Watcher.extract Sample.no_patterns
                   (Sample.acme None (Some 0%float) 1) (Sample.priced "$100"))).
  vm_compute in H. discriminate (H eq_refl).
Qed.

Lemma price_strictly_below_ceiling_witness :
  let cfg := Sample.acme None (Some 500%float) 1 in
  let MasterConfig := Sample.master None in
  let p := Watcher.extract Sample.no_patterns cfg (Sample.priced "$499.99") in
  let q := Watcher.extract Sample.no_patterns cfg (Sample.priced "$500.00") in
  JS.lt (JS.ToNumber (Product.price p)) (Watcher.priceCeiling cfg MasterConfig)
  = true
  /\ Watcher.qualifies cfg MasterConfig q = false
  /\ Watcher.qualifies cfg MasterConfig p = true
  /\ Watcher.priceCeiling (Sample.acme None None 1) MasterConfig = 500%float
  /\ Watcher.priceCeiling cfg MasterConfig = 500%float.
Proof.
  intros cfg MasterConfig p q.
  destruct (price_strictly_below_ceiling cfg MasterConfig p)
    as [H1 [_ [H3 [_ H5]]]].
  destruct (price_strictly_below_ceiling cfg MasterConfig q) as [_ [H2 _]].
  destruct (price_strictly_below_ceiling (Sample.acme None None 1)
              MasterConfig p) as [_ [_ [_ [H4 _]]]].
  split; [apply H1; vm_compute; reflexivity|].
  split; [apply H2; vm_compute; reflexivity|].
  split; [apply H3; vm_compute; reflexivity|].
  split; [apply H4; reflexivity|].
  apply (H5 500%float). reflexivity.
Defined.

(** For a large ceiling the cent is absorbed: [1e20 - 0.01] is [1e20]. *)
Example cent_absorbed_by_rounding :
  JS.lt (1e20 - 0.01)%float 1e20%float = false.
Proof. vm_compute. reflexivity. Qed.


Example garbled_price_record :
  Watcher.getProducts Sample.no_patterns (Sample.acme None None 1)
    (Sample.document [Sample.garbled])
  = [{| Product.productName := JS.Val "RTX 3080";
        Product.productURL := JS.Val "https://acme.example/rtx-3080";
        Product.outOfStock := JS.Val false;
        Product.price := JS.Val PrimFloat.nan;
        Product.errors := Product.NoErrors |}].
Proof. vm_compute. reflexivity. Qed.

Example price_text_with_currency_and_commas :
  JS.Number_ (JS.strip_non_price "USD 1,299.99 incl. tax") = PrimFloat.nan
  /\ JS.Number_ (JS.strip_non_price "$1,299.99") = 1299.99%float
  /\ JS.Number_ (JS.strip_non_price "499.") = 499%float
  /\ JS.Number_ (JS.strip_non_price ".5") = 0.5%float.
Proof. vm_compute. repeat split; reflexivity. Qed.

Lemma count_mismatch_handling_witness :
  let cfg := Sample.acme None None 2 in
  Watcher.getProducts Sample.no_patterns cfg (Sample.document [])
  = [Watcher.load_error_record cfg]
  /\ Watcher.errors
       (Watcher.getProducts Sample.no_patterns cfg (Sample.document []))
     = [Watcher.load_error_record cfg].
Proof.
  intro cfg.
  apply (count_mismatch_handling Sample.no_patterns cfg (Sample.document [])).
  vm_compute. discriminate.
Defined.

(** The spec's second case: one item extracted where two were expected. *)
Example one_item_where_two_expected :
  Watcher.getProducts Sample.no_patterns (Sample.acme None None 2)
    (Sample.document [Sample.priced "$499.99"])
  = [{| Product.productName := JS.Val "RTX 3080";
        Product.productURL := JS.Val "https://acme.example/rtx-3080";
        Product.outOfStock := JS.Val false;
        Product.price := JS.Val 499.99%float;
        Product.errors :=
          Product.Tags
            ["Did not find the expected number of results for Acme.  Expected 2, found 1."] |}].
Proof. vm_compute. reflexivity. Qed.

Lemma digitless_price_is_zero_witness :
  let cfg := Sample.acme None None 1 in
  let p := Watcher.extract Sample.no_patterns cfg Sample.call_for_price in
  Product.price p = JS.Val 0%float
  /\ Product.has_tag "Price" p = false
  /\ Watcher.qualifies cfg (Sample.master None) p = true.
Proof.
  intros cfg p.
  destruct (digitless_price_is_zero Sample.no_patterns cfg (Sample.master None)
              Sample.call_for_price (Sample.element "Call for price")
              eq_refl eq_refl) as [H1 [H2 H3]].
  split; [exact H1|]. split; [exact H2|].
  apply H3; vm_compute; reflexivity.
Defined.

(** ** One check and the loop of checks *)

Section Checks.

Variable RegExp_gi_match : string -> string -> option (list string).
Variable watchConfig : WatchConfig.t.
Variable MasterConfig : MasterConfig.t.

Local Abbreviation getProducts := (Watcher.getProducts RegExp_gi_match watchConfig).
Local Abbreviation inStock := (Watcher.inStock watchConfig MasterConfig).
Local Abbreviation checkPage := (Watcher.checkPage RegExp_gi_match watchConfig MasterConfig).
Local Abbreviation run := (Watcher.run RegExp_gi_match watchConfig MasterConfig).
Local Abbreviation errorDelay := (Watcher.errorDelay MasterConfig).
Local Abbreviation successDelay := (Watcher.successDelay MasterConfig).
Local Abbreviation refreshDelay := (Watcher.refreshDelay watchConfig MasterConfig).

(** The timers of a check whose page loaded and was evaluated, branch by
    branch. *)
Lemma checkPage_timers_evaluated (r : Watcher.Responses) (s : Watcher.fields)
  (n : nat) (doc : DOM.Document) :
  Watcher.wait r = Watcher.Granted -> Watcher.newPage r = Some n ->
  Watcher.waitForSelector_resolves r = true -> Watcher.evaluate r = Some doc ->
  Watcher.timers (Watcher.trace (checkPage r s)) =
  if (0 <? List.length (Watcher.errors (Watcher.received (getProducts doc))))%nat then
    if Watcher.screenshot_resolves r then [errorDelay] else []
  else if (List.length (inStock (Watcher.received (getProducts doc))) =? 0)%nat then
    [refreshDelay]
  else if Watcher.screenshot_resolves r then [successDelay] else [].
Proof.
  destruct r as [w np g ws ev ss]; destruct s as [pg h]; simpl.
  intros -> -> -> ->.
  unfold Watcher.checkPage, Watcher.loadPage, Watcher.process,
    Watcher.evaluate_getProducts, Watcher.screenshot, Watcher.close_page,
    Watcher.arm, Watcher.attempt, Watcher.bind, Watcher.trace; simpl.
  destruct (0 <? List.length (Watcher.errors (Watcher.received (getProducts doc))))%nat; simpl.
  - destruct ss; reflexivity.
  - destruct (List.length (inStock (Watcher.received (getProducts doc))) =? 0)%nat; simpl;
      [reflexivity | destruct ss; reflexivity].
Qed.

(** The timers of a check whose selectors did not show up. *)
Lemma checkPage_timers_selector_timeout (r : Watcher.Responses)
  (s : Watcher.fields) (n : nat) :
  Watcher.wait r = Watcher.Granted -> Watcher.newPage r = Some n ->
  Watcher.waitForSelector_resolves r = false ->
  Watcher.timers (Watcher.trace (checkPage r s)) =
  if Watcher.screenshot_resolves r then [errorDelay] else [].
Proof.
  destruct r as [w np g ws ev ss]; destruct s as [pg h]; simpl.
  intros -> -> ->.
  unfold Watcher.checkPage, Watcher.loadPage, Watcher.screenshot,
    Watcher.close_page, Watcher.arm, Watcher.attempt, Watcher.bind,
    Watcher.trace; simpl.
  destruct ss; reflexivity.
Qed.

(** With a cooperative browser every check arms one timer. *)
Lemma cooperative_check_arms_one_timer (r : Watcher.Responses)
  (s : Watcher.fields) :
  Watcher.cooperative r = true ->
  exists d, Watcher.timers (Watcher.trace (checkPage r s)) = [d].
Proof.
  unfold Watcher.cooperative.
  destruct (Watcher.wait r) eqn:Hw; try discriminate.
  destruct (Watcher.newPage r) as [n|] eqn:Hn; try discriminate.
  intro H. apply andb_true_iff in H. destruct H as [Hs He].
  destruct (Watcher.waitForSelector_resolves r) eqn:Hsel.
  - destruct (Watcher.evaluate r) as [doc|] eqn:Hev; [|discriminate].
    rewrite (checkPage_timers_evaluated r s n doc Hw Hn Hsel Hev), Hs.
    destruct (_ <? _)%nat; [eauto|]. destruct (_ =? _)%nat; eauto.
  - rewrite (checkPage_timers_selector_timeout r s n Hw Hn Hsel), Hs. eauto.
Qed.

(** X13: With a cooperative browser the loop never stops: it runs as many
    checks as it is given time for. *)
Lemma cooperative_loop_keeps_going (responses : nat -> Watcher.Responses) :
  (forall k, Watcher.cooperative (responses k) = true) ->
  forall n k s, List.length (run n responses k s) = n.
Proof.
  intros Hc n. induction n as [|n IH]; intros k s; [reflexivity|].
  simpl. destruct (checkPage (responses k) s) as [[tr s'] o] eqn:E.
  destruct (cooperative_check_arms_one_timer (responses k) s (Hc k)) as [d Hd].
  rewrite E in Hd. unfold Watcher.trace in Hd. simpl in Hd. rewrite Hd.
  simpl. rewrite IH. reflexivity.
Qed.

(** C5 (as amended): for a check that completes evaluation, the outcome
    taken on the records as [page.evaluate] hands them over decides what
    follows.  With errors: no notification, and the next check is timed
    with the error interval; without errors and without qualifying items:
    no notification, and the next check is timed with
    [target.refreshSeconds] when that is set and truthy (not [0]) and with
    the global default otherwise; with qualifying items and no errors, and
    only then: the notifier is called with the qualifying list, and the
    next check is timed with the success interval.  For the first and the
    last case the timer is stated for a check whose screenshot call does
    not throw. *)
Theorem next_delay_by_outcome (r : Watcher.Responses) (s : Watcher.fields)
  (n : nat) (doc : DOM.Document) :
  Watcher.wait r = Watcher.Granted -> Watcher.newPage r = Some n ->
  Watcher.waitForSelector_resolves r = true -> Watcher.evaluate r = Some doc ->
  let products := Watcher.received (getProducts doc) in
  let tr := Watcher.trace (checkPage r s) in
  match Watcher.errors products, inStock products with
  | _ :: _, _ =>
      Watcher.notifications tr = []
      /\ (forall d, In d (Watcher.timers tr) -> d = errorDelay)
      /\ (Watcher.screenshot_resolves r = true ->
          Watcher.timers tr = [errorDelay])
  | [], [] =>
      Watcher.notifications tr = []
      /\ Watcher.timers tr
         = [match WatchConfig.refreshSeconds watchConfig with
            | Some sec =>
                if JS.truthy_number sec then (sec * 1000)%float
                else (MasterConfig.defaultRefreshSeconds MasterConfig * 1000)%float
            | None =>
                (MasterConfig.defaultRefreshSeconds MasterConfig * 1000)%float
            end]
  | [], _ :: _ =>
      Watcher.notifications tr = [inStock products]
      /\ (forall d, In d (Watcher.timers tr) -> d = successDelay)
      /\ (Watcher.screenshot_resolves r = true ->
          Watcher.timers tr = [successDelay])
  end.
Proof.
  intros Hw Hn Hsel Hev products tr. subst tr.
  rewrite (checkPage_timers_evaluated r s n doc Hw Hn Hsel Hev),
    checkPage_notifications, Hw, Hn, Hev, Hsel.
  cbv zeta. fold products.
  destruct (Watcher.errors products) as [|e es]; simpl.
  - destruct (inStock products) as [|p ps]; simpl.
    + split; reflexivity.
    + split; [reflexivity|].
      destruct (Watcher.screenshot_resolves r); split;
        first [ intros d [<- | []]; reflexivity
              | intros d []
              | reflexivity
              | discriminate ].
  - split; [reflexivity|].
    destruct (Watcher.screenshot_resolves r); split;
      first [ intros d [<- | []]; reflexivity
            | intros d []
            | reflexivity
            | discriminate ].
Qed.

End Checks.

(** C5, counterexample: with [refreshSeconds] set to [0] and a sold-out
    product, the check arms its timer with the default 60 s, not with
    [0 ?? 60 = 0] seconds. *)
Lemma zero_refreshSeconds_falls_back_to_default :
  ~ (forall RegExp_gi_match watchConfig MasterConfig r s n doc,
       Watcher.wait r = Watcher.Granted -> Watcher.newPage r = Some n ->
       Watcher.waitForSelector_resolves r = true ->
       Watcher.evaluate r = Some doc ->
       Watcher.screenshot_resolves r = true ->
       Watcher.timers
         (Watcher.trace
            (Watcher.checkPage RegExp_gi_match watchConfig MasterConfig r s))
       = [Spec.nextDelay watchConfig MasterConfig
            (Watcher.received
               (Watcher.getProducts RegExp_gi_match watchConfig doc))]).
Proof.
  intro H.
  specialize (H Sample.no_patterns (Sample.acme (Some 0%float) None 1)
                (Sample.master None)
                (Sample.responses 1 (Sample.document [Sample.sold_out]))
                Watcher.initial 1%nat (Sample.document [Sample.sold_out])
                eq_refl eq_refl eq_refl eq_refl eq_refl).
  apply (f_equal (fun l => match l with
                           | [d] => PrimFloat.eqb d 60000
                           | _ => false
                           end)) in H.
  vm_compute in H. discriminate H.
Qed.

Lemma next_delay_by_outcome_witness :
  let cfg := Sample.acme None (Some 500%float) 1 in
  let doc := Sample.document [Sample.priced "$499.99"] in
  let tr :=
    Watcher.trace
      (Watcher.checkPage Sample.no_patterns cfg (Sample.master None)
         (Sample.responses 1 doc) Watcher.initial) in
  Watcher.notifications tr
  = [Watcher.inStock cfg (Sample.master None)
       (Watcher.received (Watcher.getProducts Sample.no_patterns cfg doc))]
  /\ Watcher.timers tr = [300000%float].
Proof.
  intros cfg doc tr.
  destruct (next_delay_by_outcome Sample.no_patterns cfg (Sample.master None)
              (Sample.responses 1 doc) Watcher.initial 1%nat doc
              eq_refl eq_refl eq_refl eq_refl) as [H1 [_ H2]].
  split; [exact H1 | exact (H2 eq_refl)].
Defined.

(** The spec's end-to-end scenarios for [Acme] with [maxPrice = 500]. *)
Example acme_at_499_99 :
  Watcher.trace
    (Watcher.checkPage Sample.no_patterns (Sample.acme None (Some 500%float) 1)
       (Sample.master None)
       (Sample.responses 1 (Sample.document [Sample.priced "$499.99"]))
       Watcher.initial)
  = [Watcher.NewPage 1; Watcher.Goto "https://acme.example/rtx-3080";
     Watcher.Notify
       [{| Product.productName := JS.Val "RTX 3080";
           Product.productURL := JS.Val "https://acme.example/rtx-3080";
           Product.outOfStock := JS.Val false;
           Product.price := JS.Val 499.99%float;
           Product.errors := Product.NoErrors |}];
     Watcher.Screenshot "success" 1; Watcher.SetTimeout 300000%float;
     Watcher.Close 1].
Proof. vm_compute. reflexivity. Qed.

Example acme_at_500_00 :
  Watcher.trace
    (Watcher.checkPage Sample.no_patterns (Sample.acme None (Some 500%float) 1)
       (Sample.master None)
       (Sample.responses 1 (Sample.document [Sample.priced "$500.00"]))
       Watcher.initial)
  = [Watcher.NewPage 1; Watcher.Goto "https://acme.example/rtx-3080";
     Watcher.SetTimeout 60000%float; Watcher.Close 1].
Proof. vm_compute. reflexivity. Qed.

(** C6, at the failing inputs: a first check whose [browser.newPage()]
    rejects reaches the [catch] block with [this.page] still undefined, so
    the screenshot throws before any timer is armed, and the loop of the
    target ends after this one check however the browser behaves later; a
    page whose selectors never show up and whose screenshot is rejected
    ends the loop in the same way. *)
Theorem failed_load_can_end_the_loop :
  let cfg := Sample.acme None None 1 in
  let MasterConfig := Sample.master None in
  let page := Sample.document [Sample.priced "$699.99"] in
  Watcher.checkPage Sample.no_patterns cfg MasterConfig Sample.no_page
    Watcher.initial
  = ([], Watcher.initial, Watcher.Thrown)
  /\ (forall n,
        Watcher.run Sample.no_patterns cfg MasterConfig (S n)
          (fun k => match k with
                    | O => Sample.no_page
                    | S _ => Sample.responses k page
                    end) 0 Watcher.initial
        = [[]])
  /\ Watcher.timers
       (Watcher.trace
          (Watcher.checkPage Sample.no_patterns cfg MasterConfig
             (Sample.stuck_page 1) Watcher.initial)) = []
  /\ (forall n,
        Watcher.run Sample.no_patterns cfg MasterConfig (S n)
          (fun k => match k with
                    | O => Sample.stuck_page 1
                    | S _ => Sample.responses k page
                    end) 0 Watcher.initial
        = [[Watcher.NewPage 1; Watcher.Goto "https://acme.example/rtx-3080"]]).
Proof.
  repeat split; intros; reflexivity.
Qed.

(** ** The tab gate *)

Section GateProperties.

Variable MasterConfig : MasterConfig.t.

Local Abbreviation tabCeiling := (Main.tabCeiling MasterConfig).
Local Abbreviation wait := (Main.wait MasterConfig).
Local Abbreviation step := (Main.step MasterConfig).
Local Abbreviation steps := (Main.steps MasterConfig).
Local Abbreviation atomic_step := (Main.atomic_step MasterConfig).

Lemma must_queue_false (s : Main.system) :
  Main.must_queue MasterConfig s = false <->
  (Main.open_contexts s < tabCeiling)%Z /\ (List.length (Main.queue s) <= 1)%nat.
Proof.
  unfold Main.must_queue, Main.open_contexts.
  rewrite orb_false_iff, Nat.ltb_ge, Z.leb_gt. tauto.
Qed.

Lemma wait_now (watchConfig : WatchConfig.t) (req : nat) (s : Main.system) :
  snd (wait watchConfig req s) = negb (Main.must_queue MasterConfig s).
Proof. unfold Main.wait. destruct (Main.must_queue MasterConfig s); reflexivity. Qed.

(** The reclaimer releases the head of the queue, and only while the
    browser shows its one initial tab. *)
Lemma tick_releases_head (s s' : Main.system) (req : nat) :
  Main.tick s = (s', Some req) ->
  Main.queue s = req :: Main.queue s' /\ Main.pages s = 1%nat
  /\ Main.resolved s' = Main.resolved s ++ [req].
Proof.
  unfold Main.tick. destruct (Main.queue s) as [|x rest] eqn:Eq; [discriminate|].
  destruct (Nat.eqb_spec (Main.pages s) 1); [|discriminate].
  intro H. injection H as <- <-. simpl. auto.
Qed.

Lemma step_is_fifo (a : Main.action) (s : Main.system) :
  Main.queue s ++ Main.queued_of (snd (step a s))
  = Main.released_of (snd (step a s)) ++ Main.queue (fst (step a s)).
Proof.
  destruct a as [cfg req | | req | ]; simpl.
  - unfold Main.wait. destruct (Main.must_queue MasterConfig s); simpl;
      [reflexivity | apply app_nil_r].
  - unfold Main.tick. destruct (Main.queue s) as [|r rest] eqn:Eq; simpl;
      [rewrite Eq; reflexivity|].
    destruct (Main.pages s =? 1)%nat; simpl;
      [rewrite app_nil_r | rewrite Eq, app_nil_r]; reflexivity.
  - destruct (existsb _ _); simpl; apply app_nil_r.
  - destruct (_ <? _)%nat; simpl; apply app_nil_r.
Qed.

(** Requests leave the queue in the order in which they entered it:
    along any run, what was queued at the start followed by what was queued
    during the run is what was released followed by what is still queued. *)
Lemma queue_is_fifo (l : list Main.action) (s : Main.system) :
  Main.queue s ++ Main.queued_of (snd (steps l s))
  = Main.released_of (snd (steps l s)) ++ Main.queue (fst (steps l s)).
Proof.
  revert s. induction l as [|a l IH]; intro s; simpl.
  - apply app_nil_r.
  - pose proof (step_is_fifo a s) as Ha.
    destruct (step a s) as [s1 e1]. specialize (IH s1).
    destruct (steps l s1) as [s2 e2]. simpl in *.
    unfold Main.queued_of, Main.released_of in *.
    rewrite !flat_map_app, app_assoc, Ha, <- !app_assoc, IH. reflexivity.
Qed.

(** A queued request leaves the queue only through the reclaimer. *)
Lemma queued_until_released (a : Main.action) (s : Main.system) (req : nat) :
  In req (Main.queue s) ->
  In req (Main.queue (fst (step a s)))
  \/ (a = Main.Tick
      /\ (exists rest, Main.queue s = req :: rest)
      /\ Main.pages s = 1%nat).
Proof.
  intro Hin. destruct a as [cfg r | | r | ]; simpl.
  - left. unfold Main.wait.
    destruct (Main.must_queue MasterConfig s); simpl;
      [apply in_or_app; left|]; exact Hin.
  - destruct (Main.tick s) as [s' [r|]] eqn:Et; simpl.
    + destruct (tick_releases_head _ _ _ Et) as [Hq [Hp _]].
      rewrite Hq in Hin. destruct Hin as [-> | Hin].
      * right. split; [reflexivity|]. split; [eauto | exact Hp].
      * left. exact Hin.
    + left. unfold Main.tick in Et.
      destruct (Main.queue s) eqn:Eq; [contradiction|].
      destruct (_ =? _)%nat; [discriminate|].
      injection Et as <-. rewrite Eq. exact Hin.
  - left. destruct (existsb _ _); exact Hin.
  - left. destruct (_ <? _)%nat; exact Hin.
Qed.

(** C3 (as amended): [wait] resolves at once if and only if the number of
    open pages minus the browser's own tab is below the global ceiling
    ([MasterConfig.maxTabs], 10 when that is unset or [0], whatever the
    target's own [maxTabs]) and at most one request is waiting in the
    queue; otherwise it appends its resolver at the end of the queue, and a
    queued request leaves the queue only when the reclaimer pops it as the
    head. *)
Theorem wait_resolves_at_once_iff :
  (forall watchConfig req s,
     snd (wait watchConfig req s) = true <->
     (Main.open_contexts s < tabCeiling)%Z
     /\ (List.length (Main.queue s) <= 1)%nat)
  /\ (forall watchConfig req s,
        snd (wait watchConfig req s) = false ->
        Main.queue (fst (wait watchConfig req s)) = Main.queue s ++ [req]
        /\ Main.resolved (fst (wait watchConfig req s)) = Main.resolved s)
  /\ (forall watchConfig watchConfig' req s,
        wait watchConfig req s = wait watchConfig' req s)
  /\ tabCeiling
     = match MasterConfig.maxTabs MasterConfig with
       | Some n => if (n =? 0)%Z then 10%Z else n
       | None => 10%Z
       end
  /\ (forall a s req,
        In req (Main.queue s) ->
        In req (Main.queue (fst (step a s)))
        \/ (a = Main.Tick
            /\ (exists rest, Main.queue s = req :: rest)
            /\ Main.pages s = 1%nat)).
Proof.
  split; [|split; [|split; [|split]]].
  - intros cfg req s. rewrite wait_now, negb_true_iff. apply must_queue_false.
  - intros cfg req s. unfold Main.wait.
    destruct (Main.must_queue MasterConfig s); simpl;
      [split; reflexivity | discriminate].
  - reflexivity.
  - unfold Main.tabCeiling, JS.truthy_int.
    destruct (MasterConfig.maxTabs MasterConfig) as [n|]; [|reflexivity].
    destruct (n =? 0)%Z; reflexivity.
  - exact queued_until_released.
Qed.

(** *** When opening the page follows the admission at once *)

Lemma atomic_step_bounded (a : Main.atomic_action) (s : Main.system) :
  (1 <= tabCeiling)%Z ->
  (Main.open_contexts s <= tabCeiling)%Z ->
  (Main.open_contexts (atomic_step a s) <= tabCeiling)%Z.
Proof.
  unfold Main.open_contexts. intros HN Hs.
  assert (Hfound : forall req l, existsb (Nat.eqb req) (l ++ [req]) = true).
  { intros req l. rewrite existsb_app. simpl.
    rewrite Nat.eqb_refl. apply orb_true_r. }
  destruct a as [cfg req | | ]; unfold Main.atomic_step.
  - unfold Main.wait.
    destruct (Main.must_queue MasterConfig s) eqn:Hq; [exact Hs|].
    apply must_queue_false in Hq. unfold Main.open_contexts in Hq.
    unfold Main.step. cbn [Main.resolved Main.pages Main.queue].
    rewrite Hfound. cbn [fst Main.pages]. rewrite Nat2Z.inj_succ. lia.
  - unfold Main.tick. destruct (Main.queue s) as [|r rest]; [exact Hs|].
    destruct (Nat.eqb_spec (Main.pages s) 1) as [E|_]; [|exact Hs].
    unfold Main.step. cbn [Main.resolved Main.pages Main.queue].
    rewrite Hfound. cbn [fst Main.pages]. rewrite E. simpl. lia.
  - unfold Main.step.
    destruct (Nat.ltb_spec 1 (Main.pages s)); cbn [fst Main.pages]; lia.
Qed.

(** X16: If no other request is examined between an admission and the opening
    of its page, the open pages never exceed a ceiling of at least one. *)
Lemma atomic_runs_respect_ceiling (l : list Main.atomic_action) :
  (1 <= tabCeiling)%Z ->
  (Main.open_contexts (fold_left (fun s a => atomic_step a s) l Main.idle)
   <= tabCeiling)%Z.
Proof.
  intro HN.
  assert (H : forall s, (Main.open_contexts s <= tabCeiling)%Z ->
            (Main.open_contexts (fold_left (fun s a => atomic_step a s) l s)
             <= tabCeiling)%Z).
  { induction l as [|a l IH]; intros s Hs; simpl; [exact Hs|].
    apply IH, atomic_step_bounded; assumption. }
  apply H. unfold Main.open_contexts, Main.idle. simpl. lia.
Qed.

End GateProperties.

(** C3, counterexample: with one request already queued and no page open,
    [wait] resolves at once. *)
Lemma wait_passes_one_queued_request :
  ~ (forall MasterConfig watchConfig req s,
       snd (Main.wait MasterConfig watchConfig req s) = true <->
       (Main.open_contexts s < Main.tabCeiling MasterConfig)%Z
       /\ Main.queue s = []).
Proof.
  intro H.
  destruct (H (Sample.master None) (Sample.acme None None 1) 8%nat
              {| Main.pages := 1; Main.queue := [7%nat]; Main.resolved := [] |})
    as [H1 _].
  destruct (H1 eq_refl) as [_ Hq]. discriminate Hq.
Qed.

Lemma wait_resolves_at_once_iff_witness :
  let s := {| Main.pages := 11; Main.queue := [7%nat]; Main.resolved := [] |} in
  let cfg := Sample.acme None None 1 in
  Main.queue (fst (Main.wait (Sample.master None) cfg 8%nat s)) = [7%nat; 8%nat]
  /\ Main.resolved (fst (Main.wait (Sample.master None) cfg 8%nat s)) = [].
Proof.
  intros s cfg.
  apply (proj1 (proj2 (wait_resolves_at_once_iff (Sample.master None)))).
  reflexivity.
Defined.

(** C9, at the failing input: with the default ceiling of 10 and nothing
    open, fifteen requests that are examined before any of their owners has
    reached [browser.newPage()] are all resolved at once, none is queued,
    and fifteen pages are then open together. *)
Theorem simultaneous_requests_exceed_ceiling :
  let MasterConfig := Sample.master None in
  let requests := seq 1 15 in
  let run :=
    Main.steps MasterConfig
      (map (Main.Wait (Sample.acme None None 1)) requests
       ++ map Main.OpenPage requests) Main.idle in
  Main.tabCeiling MasterConfig = 10%Z
  /\ snd run = map Main.Immediate requests
  /\ Main.queue (fst run) = []
  /\ Main.open_contexts (fst run) = 15%Z.
Proof. vm_compute. repeat split; reflexivity. Qed.

(** The same with a ceiling of one and two requests. *)
Example two_requests_one_tab :
  Main.open_contexts
    (fst (Main.steps (Sample.master (Some 1%Z))
            [Main.Wait (Sample.acme None None 1) 1;
             Main.Wait (Sample.acme None None 1) 2;
             Main.OpenPage 1; Main.OpenPage 2] Main.idle))
  = 2%Z.
Proof. reflexivity. Qed.

(** The reclaimer has the same gap: two ticks that both run before the
    owner of the first released request has opened its page release two
    requests under a ceiling of one. *)
Example two_ticks_before_the_page_opens :
  let MasterConfig := Sample.master (Some 1%Z) in
  let cfg := Sample.acme None None 1 in
  let run :=
    Main.steps MasterConfig
      [Main.Wait cfg 1; Main.OpenPage 1; Main.Wait cfg 2; Main.Wait cfg 3;
       Main.ClosePage; Main.Tick; Main.Tick; Main.OpenPage 2; Main.OpenPage 3]
      Main.idle in
  snd run = [Main.Immediate 1; Main.Queued 2; Main.Queued 3;
             Main.Released 2; Main.Released 3]
  /\ Main.open_contexts (fst run) = 2%Z.
Proof. split; reflexivity. Qed.

(** Once the page is open, further requests queue up and are released
    oldest first, each at a tick that finds every page closed. *)
Example queued_requests_drain_in_order :
  let MasterConfig := Sample.master (Some 1%Z) in
  let cfg := Sample.acme None None 1 in
  snd (Main.steps MasterConfig
         [Main.Wait cfg 1; Main.OpenPage 1; Main.Wait cfg 2; Main.Wait cfg 3;
          Main.Tick; Main.ClosePage; Main.Tick; Main.OpenPage 2;
          Main.Tick; Main.ClosePage; Main.Tick] Main.idle)
  = [Main.Immediate 1; Main.Queued 2; Main.Queued 3;
     Main.Released 2; Main.Released 3].
Proof. reflexivity. Qed.

(** ** Further properties of the evaluator *)

Section Results.

Variable RegExp_gi_match : string -> string -> option (list string).
Variable watchConfig : WatchConfig.t.
Variable MasterConfig : MasterConfig.t.

Local Abbreviation getProducts := (Watcher.getProducts RegExp_gi_match watchConfig).
Local Abbreviation extract := (Watcher.extract RegExp_gi_match watchConfig).
Local Abbreviation inStock := (Watcher.inStock watchConfig MasterConfig).
Local Abbreviation qualifies := (Watcher.qualifies watchConfig MasterConfig).
Local Abbreviation checkPage := (Watcher.checkPage RegExp_gi_match watchConfig MasterConfig).
Local Abbreviation product_nodes doc :=
  (DOM.querySelectorAll doc (selectors.product (WatchConfig.selectors watchConfig))).
Local Abbreviation price_selector :=
  (selectors.price (WatchConfig.selectors watchConfig)).
Local Abbreviation outOfStockSelector :=
  (selectors.outOfStockSelector (WatchConfig.selectors watchConfig)).

(** A record without tags had all four blocks succeed. *)
Lemma extract_without_errors (node : DOM.Node) :
  Product.errors_length (extract node) = 0%nat ->
  exists n u o p,
    Watcher.try_productName watchConfig node = Some n
    /\ Watcher.try_productURL watchConfig node = Some u
    /\ Watcher.try_outOfStock RegExp_gi_match watchConfig node = Some o
    /\ Watcher.try_price watchConfig node = Some p.
Proof.
  unfold Product.errors_length, Watcher.extract; simpl.
  destruct (Watcher.try_productName watchConfig node) as [n|],
    (Watcher.try_productURL watchConfig node) as [u|],
    (Watcher.try_outOfStock RegExp_gi_match watchConfig node) as [o|],
    (Watcher.try_price watchConfig node) as [p|]; simpl;
    try discriminate.
  intros _. exists n, u, o, p. auto.
Qed.

Lemma pushed_record_has_error (msg : string) (node : DOM.Node) :
  (0 < Product.errors_length (Watcher.push_error msg (extract node)))%nat.
Proof.
  unfold Product.errors_length, Watcher.push_error. cbn [Product.errors].
  destruct (extract_errors_tags RegExp_gi_match watchConfig node) as [H | H];
    rewrite H; [simpl; lia|].
  rewrite length_app. simpl. lia.
Qed.

Lemma load_error_record_has_error :
  (0 < Product.errors_length (Watcher.load_error_record watchConfig))%nat.
Proof. unfold Product.errors_length. simpl. lia. Qed.

(** The count check keeps the extracted records when the count is the
    expected one, and otherwise leaves a record that counts as an error. *)
Lemma getProducts_cases (doc : DOM.Document) :
  (Z.of_nat (List.length (product_nodes doc))
   = WatchConfig.expectedProductCount watchConfig
   /\ getProducts doc = map extract (product_nodes doc))
  \/ (Z.of_nat (List.length (product_nodes doc))
      <> WatchConfig.expectedProductCount watchConfig
      /\ exists p, In p (getProducts doc)
                   /\ (0 < Product.errors_length p)%nat
                   /\ List.length (getProducts doc)
                      = Nat.max 1 (List.length (product_nodes doc))).
Proof.
  unfold Watcher.getProducts.
  set (nodes := product_nodes doc).
  destruct (Z.eq_dec (Z.of_nat (List.length nodes))
              (WatchConfig.expectedProductCount watchConfig)) as [E | Hne].
  - left. split; [exact E|]. unfold Watcher.check_count.
    rewrite length_map, E, Z.eqb_refl. reflexivity.
  - right. split; [exact Hne|].
    destruct nodes as [|a rest] eqn:En.
    + assert (Hcc : Watcher.check_count watchConfig (map extract [])
                    = [Watcher.load_error_record watchConfig]).
      { unfold Watcher.check_count.
        change (Z.of_nat (List.length (map extract []))) with 0%Z.
        change (Z.of_nat (List.length (@nil DOM.Node))) with 0%Z in Hne.
        destruct (Z.eqb_spec 0 (WatchConfig.expectedProductCount watchConfig));
          [contradiction | reflexivity]. }
      rewrite Hcc.
      exists (Watcher.load_error_record watchConfig).
      split; [left; reflexivity|].
      split; [exact load_error_record_has_error | reflexivity].
    + destruct (exists_last (l := a :: rest)) as [front [last Hl]];
        [discriminate|].
      assert (Hlen : List.length (map extract front ++ [extract last])
                     = List.length (a :: rest))
        by (rewrite Hl, !length_app, length_map; reflexivity).
      replace (map extract (a :: rest))
        with (map extract front ++ [extract last])
        by (rewrite Hl, map_app; reflexivity).
      rewrite check_count_snoc by (rewrite Hlen; exact Hne).
      eexists. split; [apply in_or_app; right; left; reflexivity|].
      split; [apply pushed_record_has_error|].
      rewrite <- Hlen, !length_app. cbn [List.length]. lia.
Qed.

(** X1: The result has one record per product node, except that a page
    without nodes gives one record when a product was expected: the count
    check never drops a record and adds at most that one. *)
Theorem getProducts_length (doc : DOM.Document) :
  List.length (getProducts doc)
  = match product_nodes doc with
    | [] =>
        if (WatchConfig.expectedProductCount watchConfig =? 0)%Z then 0%nat
        else 1%nat
    | _ :: _ => List.length (product_nodes doc)
    end.
Proof.
  destruct (getProducts_cases doc) as [[E ->] | [Hne [p [_ [_ ->]]]]].
  - rewrite length_map. destruct (product_nodes doc); [|reflexivity].
    simpl in E. rewrite <- E. reflexivity.
  - destruct (product_nodes doc) as [|a l]; simpl in *.
    + destruct (Z.eqb_spec (WatchConfig.expectedProductCount watchConfig) 0);
        [congruence | reflexivity].
    + reflexivity.
Qed.

Lemma errors_received (l : list Product.t) :
  Watcher.errors (Watcher.received l) = Watcher.received (Watcher.errors l).
Proof.
  unfold Watcher.errors, Watcher.received.
  induction l as [|a l IH]; simpl; [reflexivity|].
  change (Product.errors_length (Watcher.transport a))
    with (Product.errors_length a).
  destruct (0 <? Product.errors_length a)%nat; simpl; rewrite IH; reflexivity.
Qed.

(** X2: If the errors selection of the list that the program receives is
    empty, the list has exactly the expected number of records, and each
    is the copy of an extracted record in which the name, the out-of-stock
    flag and the price were resolved: name and flag are values, the URL is
    not [null], no [errors] field is present, and the price is the number
    parsed in the page, or [null] when that number is [NaN] or infinite. *)
Theorem error_free_result_is_complete (doc : DOM.Document) :
  Watcher.errors (Watcher.received (getProducts doc)) = [] ->
  Z.of_nat (List.length (Watcher.received (getProducts doc)))
  = WatchConfig.expectedProductCount watchConfig
  /\ forall p, In p (Watcher.received (getProducts doc)) ->
       exists node name sold number,
         In node (product_nodes doc)
         /\ p = Watcher.transport (extract node)
         /\ Product.productName p = JS.Val name
         /\ Product.outOfStock p = JS.Val sold
         /\ Product.price (extract node) = JS.Val number
         /\ Product.price p = Watcher.transport_number number
         /\ Product.productURL p <> JS.Null
         /\ Product.errors p = Product.NoErrors.
Proof.
  intro Hnil. rewrite errors_received in Hnil.
  apply map_eq_nil in Hnil.
  assert (Hclean : forall q, In q (getProducts doc) ->
                     Product.errors_length q = 0%nat).
  { intros q Hq. destruct (Product.errors_length q) eqn:E; [reflexivity|].
    assert (H : In q (Watcher.errors (getProducts doc)))
      by (apply In_errors; split; [exact Hq | lia]).
    rewrite Hnil in H. contradiction. }
  destruct (getProducts_cases doc) as [[E Hget] | [_ [q [Hq [Hlt _]]]]].
  2:{ rewrite (Hclean q Hq) in Hlt. lia. }
  unfold Watcher.received at 1. rewrite length_map.
  split; [rewrite Hget, length_map; exact E|].
  intros p Hp. unfold Watcher.received in Hp.
  apply in_map_iff in Hp. destruct Hp as [q [<- Hq]].
  pose proof (Hclean q Hq) as H0.
  rewrite Hget in Hq. apply in_map_iff in Hq. destruct Hq as [node [<- Hnode]].
  destruct (extract_without_errors node H0) as [n [u [o [x [Hn [Hu [Ho Hx]]]]]]].
  exists node, n, o, x. split; [exact Hnode|]. split; [reflexivity|].
  unfold Watcher.transport, Watcher.extract; simpl.
  rewrite Hn, Hu, Ho, Hx. simpl.
  repeat split; try reflexivity.
  unfold Watcher.try_productURL in Hu.
  destruct (JS.truthy_opt JS.truthy_string _);
    [|injection Hu as <-; discriminate].
  destruct (selectors.productURL _); [|discriminate].
  destruct (DOM.querySelector node s); [|discriminate].
  injection Hu as <-. destruct (DOM.href e); discriminate.
Qed.

(** X3: The [Out of stock] tag is pushed exactly when [querySelector]
    throws on the indicator selector, or a text pattern is configured, the
    indicator element exists and [RegExp] rejects the pattern; without a
    pattern and with a selector that is accepted, the flag is the presence
    of the element. *)
Theorem outOfStock_tag_iff (node : DOM.Node) :
  (Product.has_tag "Out of stock" (extract node) = true <->
   DOM.rejects node outOfStockSelector = true
   \/ exists pattern el,
        WatchConfig.outOfStockText watchConfig = Some pattern
        /\ pattern <> EmptyString
        /\ DOM.querySelector node outOfStockSelector = Some el
        /\ RegExp_gi_match pattern (DOM.textContent el) = None)
  /\ (JS.truthy_opt JS.truthy_string (WatchConfig.outOfStockText watchConfig)
      = false ->
      DOM.rejects node outOfStockSelector = false ->
      Product.outOfStock (extract node)
      = JS.Val (match DOM.querySelector node outOfStockSelector with
                | Some _ => true
                | None => false
                end)).
Proof.
  assert (Htag : Product.has_tag "Out of stock" (extract node)
                 = match Watcher.try_outOfStock RegExp_gi_match watchConfig node
                   with None => true | Some _ => false end).
  { unfold Product.has_tag, Watcher.extract; simpl.
    destruct (Watcher.try_productName watchConfig node),
      (Watcher.try_productURL watchConfig node),
      (Watcher.try_outOfStock RegExp_gi_match watchConfig node),
      (Watcher.try_price watchConfig node); reflexivity. }
  split.
  - rewrite Htag. unfold Watcher.try_outOfStock, DOM.querySelector.
    destruct (DOM.rejects node outOfStockSelector) eqn:Erej;
      [split; [auto | reflexivity]|].
    destruct (WatchConfig.outOfStockText watchConfig) as [pattern|]; simpl.
    + destruct pattern as [|c pattern]; simpl.
      * split; [discriminate|]. intros [H | [pat [el [H [Hne _]]]]];
          [discriminate|]. injection H as <-. contradiction.
      * destruct (DOM.first_match node outOfStockSelector) as [el|].
        -- destruct (RegExp_gi_match (String c pattern) (DOM.textContent el))
             eqn:Er.
           ++ split; [discriminate|].
              intros [H | [pat [el' [H [_ [H2 H3]]]]]]; [discriminate|].
              injection H as <-. injection H2 as <-. congruence.
           ++ split; [|reflexivity]. intros _. right.
              exists (String c pattern), el. repeat split; try assumption.
              discriminate.
        -- split; [discriminate|].
           intros [H | [pat [el' [_ [_ [H _]]]]]]; discriminate.
    + split; [discriminate|]. intros [H | [pat [el [H _]]]]; discriminate.
  - intros Hno Hrej. unfold Watcher.extract; simpl.
    unfold Watcher.try_outOfStock, DOM.querySelector.
    rewrite Hrej, Hno. reflexivity.
Qed.

(** X4: Every tag of a returned record is one of the four field names or the
    count message. *)
Theorem tags_are_known (doc : DOM.Document) (p : Product.t) (tag : string) :
  In p (getProducts doc) -> In tag (Product.tags p) ->
  In tag ["Product name"; "Product URL"; "Out of stock"; "Price"]
  \/ exists n, tag = Watcher.count_mismatch_message watchConfig n.
Proof.
  assert (Hx : forall node, In tag (Product.tags (extract node)) ->
            In tag ["Product name"; "Product URL"; "Out of stock"; "Price"]).
  { intro node. unfold Product.tags, Watcher.extract; simpl.
    destruct (Watcher.try_productName watchConfig node),
      (Watcher.try_productURL watchConfig node),
      (Watcher.try_outOfStock RegExp_gi_match watchConfig node),
      (Watcher.try_price watchConfig node); simpl; tauto. }
  intros Hin Htag.
  destruct (In_getProducts _ _ doc p Hin) as [[node ->] | [[node [n ->]] | ->]].
  - left. exact (Hx node Htag).
  - unfold Product.tags at 1, Watcher.push_error in Htag.
    cbn [Product.errors] in Htag.
    destruct (extract_errors_tags RegExp_gi_match watchConfig node) as [H | H];
      rewrite H in Htag.
    + destruct Htag as [<- | []]. right. eauto.
    + apply in_app_or in Htag. destruct Htag as [Ht | [<- | []]].
      * left. exact (Hx node Ht).
      * right. eauto.
  - contradiction.
Qed.

End Results.

(** ** Price texts *)

Lemma strip_non_price_app (a b : string) :
  JS.strip_non_price (a ++ b)%string
  = (JS.strip_non_price a ++ JS.strip_non_price b)%string.
Proof.
  induction a as [|c a IH]; simpl; [reflexivity|].
  destruct (JS.is_digit_or_dot c); simpl; rewrite IH; reflexivity.
Qed.

Lemma strip_non_price_kept (s : string) :
  forall c, In c (list_ascii_of_string (JS.strip_non_price s)) ->
            JS.is_digit_or_dot c = true /\ In c (list_ascii_of_string s).
Proof.
  induction s as [|a s IH]; simpl; [contradiction|].
  intros c. destruct (JS.is_digit_or_dot a) eqn:E; simpl.
  - intros [<- | H]; [auto|]. destruct (IH c H). auto.
  - intro H. destruct (IH c H). auto.
Qed.

(** X5: The clean-up keeps only digits and decimal points, cleaning a cleaned
    text changes nothing, and the clean-up of a concatenation is the
    concatenation of the clean-ups. *)
Theorem strip_non_price_idempotent (s t : string) :
  JS.strip_non_price (JS.strip_non_price s) = JS.strip_non_price s
  /\ JS.strip_non_price (s ++ t)%string
     = (JS.strip_non_price s ++ JS.strip_non_price t)%string
  /\ forall c, In c (list_ascii_of_string (JS.strip_non_price s)) ->
               JS.is_digit_or_dot c = true.
Proof.
  split; [|split].
  - induction s as [|c s IH]; simpl; [reflexivity|].
    destruct (JS.is_digit_or_dot c) eqn:E; simpl; [rewrite E, IH|];
      auto.
  - apply strip_non_price_app.
  - intros c H. exact (proj1 (strip_non_price_kept s c H)).
Qed.

Lemma strip_keeps_dots (s : string) :
  JS.count_dots (JS.strip_non_price s) = JS.count_dots s.
Proof.
  induction s as [|c s IH]; simpl; [reflexivity|].
  unfold JS.is_digit_or_dot.
  destruct (nat_of_ascii c =? 46)%nat eqn:E.
  - rewrite orb_true_r. simpl. rewrite E, IH. reflexivity.
  - rewrite orb_false_r. destruct (JS.is_digit c); simpl;
      [rewrite E|]; rewrite IH; reflexivity.
Qed.

Lemma all_digits_no_dots (s : string) :
  JS.all_digits s = true -> JS.count_dots s = 0%nat.
Proof.
  induction s as [|c s IH]; simpl; [reflexivity|].
  intro H. apply andb_true_iff in H. destruct H as [Hd Hs].
  rewrite (IH Hs). unfold JS.is_digit in Hd.
  apply andb_true_iff in Hd. destruct Hd as [H1 H2].
  apply Nat.leb_le in H1.
  destruct (Nat.eqb_spec (nat_of_ascii c) 46); [lia | reflexivity].
Qed.

Lemma split_dot_dots (s : string) :
  match JS.split_dot s with
  | (_, None) => JS.count_dots s = 0%nat
  | (_, Some b) => JS.count_dots s = S (JS.count_dots b)
  end.
Proof.
  induction s as [|c s IH]; simpl; [reflexivity|].
  destruct (nat_of_ascii c =? 46)%nat; [reflexivity|].
  destruct (JS.split_dot s) as [a [b|]]; exact IH.
Qed.

(** [Number] of a text with two decimal points is [NaN]. *)
Lemma Number_two_dots (s : string) :
  (2 <= JS.count_dots s)%nat -> JS.Number_ s = PrimFloat.nan.
Proof.
  intro H. unfold JS.Number_, JS.decimal_literal.
  destruct s as [|c s]; [simpl in H; lia|].
  pose proof (split_dot_dots (String c s)) as Hs.
  destruct (JS.split_dot (String c s)) as [a [b|]]; [|lia].
  destruct (JS.all_digits b) eqn:Eb.
  - apply all_digits_no_dots in Eb. lia.
  - rewrite andb_false_r. reflexivity.
Qed.

(** ** Further properties of a check *)

Section MoreChecks.

Variable RegExp_gi_match : string -> string -> option (list string).
Variable watchConfig : WatchConfig.t.
Variable MasterConfig : MasterConfig.t.

Local Abbreviation getProducts := (Watcher.getProducts RegExp_gi_match watchConfig).
Local Abbreviation extract := (Watcher.extract RegExp_gi_match watchConfig).
Local Abbreviation inStock := (Watcher.inStock watchConfig MasterConfig).
Local Abbreviation qualifies := (Watcher.qualifies watchConfig MasterConfig).
Local Abbreviation checkPage := (Watcher.checkPage RegExp_gi_match watchConfig MasterConfig).
Local Abbreviation errorDelay := (Watcher.errorDelay MasterConfig).
Local Abbreviation refreshDelay := (Watcher.refreshDelay watchConfig MasterConfig).
Local Abbreviation product_nodes doc :=
  (DOM.querySelectorAll doc (selectors.product (WatchConfig.selectors watchConfig))).
Local Abbreviation price_selector :=
  (selectors.price (WatchConfig.selectors watchConfig)).

(** X6: A price text with two or more decimal points (a dot used as
    thousands separator, say) is parsed to [NaN] in the page, without a
    [Price] tag; the program receives the record with the price [null],
    which compares as [0], so [inStock] selects it exactly when its
    [outOfStock] is falsy and the ceiling is positive. *)
Theorem two_decimal_points_arrive_as_null (node : DOM.Node) (el : DOM.Element) :
  DOM.querySelector node price_selector = Some el ->
  (2 <= JS.count_dots (DOM.textContent el))%nat ->
  Product.price (extract node) = JS.Val PrimFloat.nan
  /\ Product.has_tag "Price" (extract node) = false
  /\ Product.price (Watcher.transport (extract node)) = JS.Null
  /\ forall l,
       In (Watcher.transport (extract node)) (inStock l) <->
       In (Watcher.transport (extract node)) l
       /\ JS.ToBoolean (Product.outOfStock (extract node)) = false
       /\ JS.lt 0 (Watcher.priceCeiling watchConfig MasterConfig) = true.
Proof.
  intros Hel Hdots.
  assert (Hp : Product.price (extract node) = JS.Val PrimFloat.nan).
  { rewrite extract_price, (try_price_found watchConfig node el Hel).
    rewrite Number_two_dots; [reflexivity|].
    rewrite strip_keeps_dots. exact Hdots. }
  assert (Hn : Product.price (Watcher.transport (extract node)) = JS.Null).
  { unfold Watcher.transport. cbn [Product.price]. rewrite Hp. reflexivity. }
  split; [exact Hp|]. split; [|split; [exact Hn|]].
  - rewrite extract_price_tag, (try_price_found watchConfig node el Hel).
    reflexivity.
  - intro l. rewrite In_inStock. unfold Watcher.qualifies. rewrite Hn.
    change (Product.outOfStock (Watcher.transport (extract node)))
      with (Product.outOfStock (extract node)).
    simpl JS.ToNumber. rewrite andb_true_iff, negb_true_iff. tauto.
Qed.

Lemma errors_length_pos (l : list Product.t) (p : Product.t) :
  In p l -> (0 < Product.errors_length p)%nat ->
  (0 <? List.length (Watcher.errors l))%nat = true.
Proof.
  intros Hin Hlt. apply Nat.ltb_lt.
  assert (H : In p (Watcher.errors l)) by (apply In_errors; auto).
  destruct (Watcher.errors l); [contradiction | simpl; lia].
Qed.

(** X7: When the number of product nodes is not the expected one, a check that
    reaches the evaluation always takes the error branch: nothing is
    notified, even if a product on the page qualifies, and the timer is the
    error one. *)
Theorem count_mismatch_takes_error_branch (r : Watcher.Responses)
  (s : Watcher.fields) (n : nat) (doc : DOM.Document) :
  Watcher.wait r = Watcher.Granted -> Watcher.newPage r = Some n ->
  Watcher.waitForSelector_resolves r = true -> Watcher.evaluate r = Some doc ->
  Z.of_nat (List.length (product_nodes doc))
  <> WatchConfig.expectedProductCount watchConfig ->
  Watcher.notifications (Watcher.trace (checkPage r s)) = []
  /\ Watcher.timers (Watcher.trace (checkPage r s))
     = if Watcher.screenshot_resolves r then [errorDelay] else [].
Proof.
  intros Hw Hn Hsel Hev Hne.
  assert (He : (0 <? List.length
                        (Watcher.errors (Watcher.received (getProducts doc))))%nat
               = true).
  { destruct (getProducts_cases RegExp_gi_match watchConfig doc)
      as [[E _] | [_ [p [Hp [Hlt _]]]]]; [contradiction|].
    apply (errors_length_pos _ (Watcher.transport p));
      [apply in_map; exact Hp | exact Hlt]. }
  rewrite (checkPage_timers_evaluated _ _ _ r s n doc Hw Hn Hsel Hev),
    checkPage_notifications, Hw, Hn, Hev, Hsel.
  cbv zeta. rewrite He. split; reflexivity.
Qed.

Lemma load_error_record_not_in_stock :
  inStock [Watcher.load_error_record watchConfig] = [].
Proof.
  unfold Watcher.inStock. simpl.
  rewrite (undefined_price_never_qualifies watchConfig MasterConfig);
    reflexivity.
Qed.

Lemma getProducts_empty (doc : DOM.Document) :
  product_nodes doc = [] ->
  getProducts doc
  = if (WatchConfig.expectedProductCount watchConfig =? 0)%Z then []
    else [Watcher.load_error_record watchConfig].
Proof.
  intro Hnodes. unfold Watcher.getProducts. rewrite Hnodes.
  unfold Watcher.check_count.
  change (Z.of_nat (List.length (map extract []))) with 0%Z.
  rewrite (Z.eqb_sym 0).
  destruct (WatchConfig.expectedProductCount watchConfig =? 0)%Z; reflexivity.
Qed.

(** X8: A check whose evaluation finds no product node never notifies,
    whatever else the browser answers and whatever count was expected. *)
Theorem empty_page_never_notifies (r : Watcher.Responses) (s : Watcher.fields)
  (doc : DOM.Document) :
  Watcher.evaluate r = Some doc -> product_nodes doc = [] ->
  Watcher.notifications (Watcher.trace (checkPage r s)) = [].
Proof.
  intros Hev Hnodes. rewrite checkPage_notifications, Hev.
  destruct (Watcher.wait r); try reflexivity.
  destruct (Watcher.newPage r); try reflexivity.
  cbv zeta. rewrite (getProducts_empty doc Hnodes).
  assert (Hin : inStock
                  (Watcher.received
                     (if (WatchConfig.expectedProductCount watchConfig =? 0)%Z
                      then []
                      else [Watcher.load_error_record watchConfig])) = []).
  { destruct (WatchConfig.expectedProductCount watchConfig =? 0)%Z;
      [reflexivity|]. exact load_error_record_not_in_stock. }
  rewrite Hin. simpl. rewrite andb_false_r. reflexivity.
Qed.

(** X21: When the one expected product of a page has all four fields
    resolved and is not sold out, but its price text parses to [NaN] or to
    an infinity, the check notifies it under every positive ceiling: the
    price reaches the program as [null], which compares as [0]. *)
Theorem unparsable_price_is_notified (r : Watcher.Responses)
  (s : Watcher.fields) (n : nat) (doc : DOM.Document) (node : DOM.Node)
  (x : float) :
  Watcher.wait r = Watcher.Granted -> Watcher.newPage r = Some n ->
  Watcher.waitForSelector_resolves r = true -> Watcher.evaluate r = Some doc ->
  product_nodes doc = [node] ->
  WatchConfig.expectedProductCount watchConfig = 1%Z ->
  Product.errors_length (extract node) = 0%nat ->
  Product.price (extract node) = JS.Val x ->
  PrimFloat.is_nan x || PrimFloat.is_infinity x = true ->
  JS.ToBoolean (Product.outOfStock (extract node)) = false ->
  JS.lt 0 (Watcher.priceCeiling watchConfig MasterConfig) = true ->
  Watcher.notifications (Watcher.trace (checkPage r s))
  = [[Watcher.transport (extract node)]].
Proof.
  intros Hw Hn Hsel Hev Hnodes Hexp Hclean Hprice Hbad Hoos Hceil.
  rewrite checkPage_notifications, Hw, Hn, Hev, Hsel. cbv zeta.
  assert (Hget : getProducts doc = [extract node]).
  { unfold Watcher.getProducts, Watcher.check_count.
    rewrite Hnodes, Hexp. reflexivity. }
  rewrite Hget.
  assert (He : Watcher.errors (Watcher.received [extract node]) = []).
  { unfold Watcher.errors, Watcher.received. simpl.
    change (Product.errors_length (Watcher.transport (extract node)))
      with (Product.errors_length (extract node)).
    rewrite Hclean. reflexivity. }
  assert (Hq : qualifies (Watcher.transport (extract node)) = true).
  { unfold Watcher.qualifies, Watcher.transport. cbn [Product.price
      Product.outOfStock]. rewrite Hprice, Hoos.
    unfold Watcher.transport_number. rewrite Hbad. simpl. exact Hceil. }
  assert (Hi : inStock (Watcher.received [extract node])
               = [Watcher.transport (extract node)]).
  { unfold Watcher.inStock, Watcher.received. simpl. rewrite Hq. reflexivity. }
  rewrite He, Hi. reflexivity.
Qed.

(** X9: A check calls [notify] at most once, and never with an empty list. *)
Theorem notify_at_most_once_never_empty (r : Watcher.Responses)
  (s : Watcher.fields) :
  (List.length (Watcher.notifications (Watcher.trace (checkPage r s))) <= 1)%nat
  /\ forall l, In l (Watcher.notifications (Watcher.trace (checkPage r s))) ->
               l <> [].
Proof.
  rewrite checkPage_notifications.
  destruct (Watcher.wait r), (Watcher.newPage r), (Watcher.evaluate r) as [doc|];
    simpl; try solve [split; [simpl; lia | intros l []]].
  destruct (Watcher.waitForSelector_resolves r); simpl;
    try solve [split; [simpl; lia | intros l []]].
  destruct (0 <? _)%nat; simpl; try solve [split; [simpl; lia | intros l []]].
  destruct (List.length (inStock (Watcher.received (getProducts doc))) =? 0)%nat eqn:E; simpl;
    try solve [split; [simpl; lia | intros l []]].
  split; [lia|]. intros l [<- | []] H. rewrite H in E. discriminate.
Qed.

Local Ltac no_close :=
  let n := fresh "n" in
  let H := fresh "H" in
  intros n H; simpl in H;
  repeat (destruct H as [H | H]; [discriminate H|]); exact H.

Local Ltac settle :=
  simpl;
  first
    [ solve [split; reflexivity]
    | solve [split; [reflexivity|]; split; [reflexivity|]; no_close]
    | solve [do 2 eexists; split; [reflexivity|]; split; [reflexivity|];
             split; [simpl; repeat (first [left; reflexivity | right])
                    | reflexivity]] ].

(** X10: A check ends in one of three ways.  It returns, and then it has armed
    exactly one timer and called [close] on its page; or it throws, and
    then it has armed no timer and closed no page, so a page that it opened
    stays open; or it stays suspended on the gate, having done nothing. *)
Theorem check_outcomes (r : Watcher.Responses) (s : Watcher.fields) :
  match checkPage r s with
  | (tr, s', Watcher.Returned _) =>
      exists d n,
        Watcher.timers tr = [d] /\ Watcher.handle s' = Some d
        /\ In (Watcher.Close n) tr
        /\ Watcher.page s' = Some {| Watcher.id := n; Watcher.closed := true |}
  | (tr, s', Watcher.Thrown) =>
      Watcher.timers tr = [] /\ Watcher.handle s' = Watcher.handle s
      /\ forall n, ~ In (Watcher.Close n) tr
  | (tr, s', Watcher.Suspended) => tr = [] /\ s' = s
  end.
Proof.
  destruct r as [w np g ws ev ss]; destruct s as [pg h].
  unfold Watcher.checkPage, Watcher.loadPage, Watcher.process,
    Watcher.evaluate_getProducts, Watcher.screenshot, Watcher.close_page,
    Watcher.arm, Watcher.attempt, Watcher.bind; simpl.
  destruct w.
  - destruct np as [n|].
    + destruct ws.
      * destruct ev as [doc|]; [|settle].
        simpl.
        destruct (0 <? List.length (Watcher.errors (Watcher.received (getProducts doc))))%nat.
        -- destruct ss; settle.
        -- destruct (List.length (inStock (Watcher.received (getProducts doc))) =? 0)%nat;
             [settle | destruct ss; settle].
      * destruct ss; settle.
    + destruct pg as [[i c]|]; [destruct c; [settle | destruct ss; settle]
                                | settle].
  - destruct pg as [[i c]|]; [destruct c; [settle | destruct ss; settle]
                              | settle].
  - settle.
Qed.

End MoreChecks.

(** ** The notification *)

Section Notification.

Variable RegExp_gi_match : string -> string -> option (list string).
Variable watchConfig : WatchConfig.t.
Variable MasterConfig : MasterConfig.t.
Variable NotificationConfig : NotificationConfig.t.

Local Abbreviation getProducts := (Watcher.getProducts RegExp_gi_match watchConfig).
Local Abbreviation extract := (Watcher.extract RegExp_gi_match watchConfig).
Local Abbreviation inStock := (Watcher.inStock watchConfig MasterConfig).
Local Abbreviation notify := (Watcher.notify watchConfig).

Lemma map_constant {A B} (f : A -> B) (c : B) (l : list A) :
  (forall a, In a l -> f a = c) -> map f l = repeat c (List.length l).
Proof.
  induction l as [|a l IH]; intro H; simpl; [reflexivity|].
  rewrite (H a (or_introl eq_refl)), IH; [reflexivity|].
  intros b Hb. apply H. right. exact Hb.
Qed.



Lemma received_inStock_url_is_target_url (doc : DOM.Document) (p : Product.t) :
  JS.truthy_opt JS.truthy_string
    (selectors.productURL (WatchConfig.selectors watchConfig)) = false ->
  In p (inStock (Watcher.received (getProducts doc))) ->
  Product.productURL p = JS.Val (WatchConfig.url watchConfig).
Proof.
  intros Hsel Hin. apply In_inStock in Hin. destruct Hin as [Hin Hq].
  unfold Watcher.received in Hin. apply in_map_iff in Hin.
  destruct Hin as [q [<- Hin]].
  change (Product.productURL (Watcher.transport q))
    with (Product.productURL q).
  assert (Hx : forall node,
            Product.productURL (extract node)
            = JS.Val (WatchConfig.url watchConfig)).
  { intro node. unfold Watcher.extract; simpl.
    unfold Watcher.try_productURL. rewrite Hsel. reflexivity. }
  destruct (In_getProducts _ _ doc q Hin) as [[node ->] | [[node [n ->]] | ->]].
  - apply Hx.
  - unfold Watcher.push_error. cbn [Product.productURL]. apply Hx.
  - rewrite (undefined_price_never_qualifies watchConfig MasterConfig) in Hq;
      [discriminate | reflexivity].
Qed.

(** X22: The same for the list that a check passes to [notify], the
    selection taken on the records as the program receives them: for a
    target without a [productURL] selector the text of the mail is the URL
    of the target, once per selected record. *)
Theorem mail_of_a_check_repeats_the_target_url (doc : DOM.Document) :
  JS.truthy_opt JS.truthy_string
    (selectors.productURL (WatchConfig.selectors watchConfig)) = false ->
  notify true NotificationConfig (inStock (Watcher.received (getProducts doc)))
  = Some {| Watcher.from := NotificationConfig.gmail NotificationConfig;
            Watcher.to :=
              JS.join ", " (NotificationConfig.recipients NotificationConfig);
            Watcher.subject :=
              (WatchConfig.store watchConfig ++ " in Stock")%string;
            Watcher.text :=
              JS.join JS.newline
                (repeat (WatchConfig.url watchConfig)
                   (List.length
                      (inStock (Watcher.received (getProducts doc))))) |}.
Proof.
  intro Hsel. unfold Watcher.notify. do 3 f_equal.
  apply map_constant. intros p Hp.
  rewrite (received_inStock_url_is_target_url doc p Hsel Hp). reflexivity.
Qed.

End Notification.

(** ** Further properties of the tab gate *)

Section MoreGate.

Variable MasterConfig : MasterConfig.t.

Local Abbreviation tabCeiling := (Main.tabCeiling MasterConfig).
Local Abbreviation wait := (Main.wait MasterConfig).
Local Abbreviation step := (Main.step MasterConfig).
Local Abbreviation steps := (Main.steps MasterConfig).

Lemma step_while_open (a : Main.action) (s : Main.system) :
  (2 <= Main.pages s)%nat -> a <> Main.ClosePage ->
  Main.released_of (snd (step a s)) = []
  /\ (2 <= Main.pages (fst (step a s)))%nat.
Proof.
  intros Hp Ha. destruct a as [cfg req | | req | ]; simpl.
  - unfold Main.wait. destruct (Main.must_queue MasterConfig s); simpl; auto.
  - unfold Main.tick. destruct (Main.queue s) as [|r rest]; simpl; auto.
    destruct (Nat.eqb_spec (Main.pages s) 1); [lia|]. simpl. auto.
  - destruct (existsb _ _); simpl; auto.
  - contradiction.
Qed.

(** X15: As long as a page stays open beyond the browser's own tab (no
    [close] happens), the reclaimer releases nothing, however many ticks
    run and whatever else happens: every queued request keeps waiting. *)
Theorem nothing_released_while_a_page_stays_open (l : list Main.action)
  (s : Main.system) :
  (2 <= Main.pages s)%nat -> (forall a, In a l -> a <> Main.ClosePage) ->
  Main.released_of (snd (steps l s)) = []
  /\ (2 <= Main.pages (fst (steps l s)))%nat
  /\ exists added, Main.queue (fst (steps l s)) = Main.queue s ++ added.
Proof.
  intros Hp Hl.
  assert (H : Main.released_of (snd (steps l s)) = []
              /\ (2 <= Main.pages (fst (steps l s)))%nat).
  { revert s Hp. induction l as [|a l IH]; intros s Hp; simpl; [auto|].
    destruct (step_while_open a s Hp (Hl a (or_introl eq_refl))) as [H1 H2].
    destruct (step a s) as [s1 e1]. simpl in H1, H2.
    destruct (IH (fun b Hb => Hl b (or_intror Hb)) s1 H2) as [H3 H4].
    destruct (steps l s1) as [s2 e2]. simpl in *.
    unfold Main.released_of in *. rewrite flat_map_app, H1, H3. auto. }
  destruct H as [H1 H2]. split; [exact H1|]. split; [exact H2|].
  pose proof (queue_is_fifo MasterConfig l s) as Hf.
  rewrite H1 in Hf. simpl in Hf. eauto.
Qed.

(** X17: A global [maxTabs] of [0] means 10, and with a negative one every
    request is queued, even when no page is open. *)
Theorem negative_ceiling_queues_everything :
  tabCeiling <> 0%Z
  /\ ((tabCeiling < 0)%Z ->
      forall watchConfig req s,
        snd (wait watchConfig req s) = false
        /\ Main.queue (fst (wait watchConfig req s)) = Main.queue s ++ [req]).
Proof.
  split.
  - unfold Main.tabCeiling, JS.truthy_int.
    destruct (MasterConfig.maxTabs MasterConfig) as [n|]; [|discriminate].
    destruct (Z.eqb_spec n 0); simpl; [discriminate | assumption].
  - intros Hneg cfg req s. unfold Main.wait.
    assert (Hq : Main.must_queue MasterConfig s = true).
    { unfold Main.must_queue. apply orb_true_iff. right.
      apply Z.leb_le. lia. }
    rewrite Hq. split; reflexivity.
Qed.

End MoreGate.

(** ** Which watches are started *)

Section Startup.

Variable watches : list WatchConfig.t.
Variable disable : option (list string).

Lemma stagger_delays (l : list WatchConfig.t) (index : Z) :
  map fst (Main.stagger index l)
  = map (fun i => (5000 * (index + Z.of_nat i))%Z) (seq 0 (List.length l))
  /\ map snd (Main.stagger index l) = l.
Proof.
  revert index. induction l as [|a l IH]; intro index;
    cbn [Main.stagger map fst snd List.length seq]; [auto|].
  destruct (IH (index + 1)%Z) as [H1 H2]. rewrite H1, H2.
  split; [|reflexivity]. f_equal; [lia|].
  rewrite <- seq_shift, map_map. apply map_ext. intro i. lia.
Qed.

(** X18: The watches are started in the order of the configuration, the k-th
    one that is started 5000·k milliseconds after the start; positions
    count the enabled watches only, so disabling a target moves the later
    ones forward. *)
Theorem init_staggers_the_enabled (k : nat) (d : Z) (watchConfig : WatchConfig.t) :
  nth_error (Main.init watches disable) k = Some (d, watchConfig) ->
  d = (5000 * Z.of_nat k)%Z
  /\ nth_error (filter (Main.enabled disable) watches) k = Some watchConfig.
Proof.
  unfold Main.init. intro H.
  destruct (stagger_delays (filter (Main.enabled disable) watches) 0) as [H1 H2].
  assert (Hf : nth_error (map fst (Main.stagger 0
                 (filter (Main.enabled disable) watches))) k = Some d)
    by (rewrite nth_error_map, H; reflexivity).
  assert (Hs : nth_error (map snd (Main.stagger 0
                 (filter (Main.enabled disable) watches))) k = Some watchConfig)
    by (rewrite nth_error_map, H; reflexivity).
  rewrite H2 in Hs. split; [|exact Hs].
  rewrite H1, nth_error_map in Hf.
  assert (Hk : (k < List.length (filter (Main.enabled disable) watches))%nat)
    by (apply nth_error_Some; rewrite Hs; discriminate).
  rewrite nth_error_seq in Hf.
  destruct (Nat.ltb_spec k (List.length (filter (Main.enabled disable) watches)));
    [|lia].
  simpl in Hf. injection Hf as <-. reflexivity.
Qed.

(** X19: A target whose store is listed in [disable] is never started, unless
    its store name is empty: the test negates the name that [find]
    returns, and the empty name is falsy. *)
Theorem disabled_store_is_not_started (d : Z) (watchConfig : WatchConfig.t) :
  In (d, watchConfig) (Main.init watches disable) ->
  In watchConfig watches
  /\ (WatchConfig.store watchConfig = EmptyString
      \/ forall listed, disable = Some listed ->
                        ~ In (WatchConfig.store watchConfig) listed).
Proof.
  unfold Main.init. intro H.
  assert (Hin : In watchConfig (filter (Main.enabled disable) watches)).
  { destruct (stagger_delays (filter (Main.enabled disable) watches) 0)
      as [_ H2].
    rewrite <- H2. apply in_map_iff. exists (d, watchConfig). auto. }
  apply filter_In in Hin. destruct Hin as [Hw He]. split; [exact Hw|].
  destruct (WatchConfig.store watchConfig) as [|c name] eqn:Es; [left; reflexivity|].
  right. intros listed -> Hl. unfold Main.enabled in He. rewrite Es in He.
  destruct listed as [|x listed]; [contradiction|]. simpl List.length in He.
  change (0 <? S (List.length listed))%nat with true in He.
  unfold Main.not_found in He.
  destruct (find (String.eqb (String c name)) (x :: listed)) as [found|] eqn:Ef.
  - apply find_some in Ef. destruct Ef as [_ Heq].
    apply String.eqb_eq in Heq. subst found. discriminate.
  - apply (find_none _ _ Ef) in Hl. rewrite String.eqb_refl in Hl. discriminate.
Qed.

End Startup.

Section StartupComplete.

Variable watches : list WatchConfig.t.
Variable disable : option (list string).

(** X20: Every configured target whose store is not listed in [disable], or
    whose store name is empty, is started. *)
Theorem every_enabled_watch_is_started (watchConfig : WatchConfig.t) :
  In watchConfig watches ->
  (WatchConfig.store watchConfig = EmptyString
   \/ forall listed, disable = Some listed ->
                     ~ In (WatchConfig.store watchConfig) listed) ->
  exists d, In (d, watchConfig) (Main.init watches disable).
Proof.
  intros Hw Hen.
  assert (He : Main.enabled disable watchConfig = true).
  { unfold Main.enabled. destruct disable as [listed|]; [|reflexivity].
    destruct (0 <? List.length listed)%nat; [|reflexivity].
    unfold Main.not_found.
    destruct (find (String.eqb (WatchConfig.store watchConfig)) listed)
      as [found|] eqn:Ef; [|reflexivity].
    apply find_some in Ef. destruct Ef as [Hin Heq].
    apply String.eqb_eq in Heq. subst found.
    destruct Hen as [-> | Hnot]; [reflexivity|].
    exfalso. exact (Hnot listed eq_refl Hin). }
  assert (Hin : In watchConfig
                  (map snd (Main.init watches disable))).
  { unfold Main.init.
    rewrite (proj2 (stagger_delays (filter (Main.enabled disable) watches) 0)).
    apply filter_In. auto. }
  apply in_map_iff in Hin. destruct Hin as [[d c] [Hc Hin]].
  simpl in Hc. subst c. eauto.
Qed.

End StartupComplete.

(** X14: From an empty queue, the requests released so far are, in the same
    order, the first of the requests queued so far; the others are still in
    the queue. *)
Theorem released_is_prefix_of_queued (MasterConfig : MasterConfig.t)
  (l : list Main.action) (s : Main.system) :
  Main.queue s = [] ->
  Main.queued_of (snd (Main.steps MasterConfig l s))
  = Main.released_of (snd (Main.steps MasterConfig l s))
    ++ Main.queue (fst (Main.steps MasterConfig l s)).
Proof.
  intro Hq. rewrite <- (queue_is_fifo MasterConfig l s), Hq. reflexivity.
Qed.

(** *** Instances *)

Lemma error_free_result_is_complete_witness :
  let cfg := Sample.acme None None 1 in
  let doc := Sample.document [Sample.priced "$499.99"] in
  let products :=
    Watcher.received (Watcher.getProducts Sample.no_patterns cfg doc) in
  Z.of_nat (List.length products) = 1%Z
  /\ forall p, In p products ->
       exists node name sold number,
         In node [Sample.priced "$499.99"]
         /\ p = Watcher.transport (Watcher.extract Sample.no_patterns cfg node)
         /\ Product.productName p = JS.Val name
         /\ Product.outOfStock p = JS.Val sold
         /\ Product.price (Watcher.extract Sample.no_patterns cfg node)
            = JS.Val number
         /\ Product.price p = Watcher.transport_number number
         /\ Product.productURL p <> JS.Null
         /\ Product.errors p = Product.NoErrors.
Proof.
  intros cfg doc products.
  apply (error_free_result_is_complete Sample.no_patterns cfg doc).
  vm_compute. reflexivity.
Defined.

Lemma outOfStock_tag_iff_witness :
  Product.outOfStock
    (Watcher.extract Sample.no_patterns (Sample.acme None None 1) Sample.sold_out)
  = JS.Val true.
Proof.
  exact (proj2 (outOfStock_tag_iff Sample.no_patterns (Sample.acme None None 1)
                  Sample.sold_out) eq_refl eq_refl).
Defined.

Lemma tags_are_known_witness :
  In "Product name" ["Product name"; "Product URL"; "Out of stock"; "Price"]
  \/ exists n,
       "Product name"
       = Watcher.count_mismatch_message (Sample.acme None None 1) n.
Proof.
  apply (tags_are_known Sample.no_patterns (Sample.acme None None 1)
           (Sample.document [Sample.nameless])
           (Watcher.extract Sample.no_patterns (Sample.acme None None 1)
              Sample.nameless) "Product name");
    vm_compute; left; reflexivity.
Defined.

Lemma strip_non_price_idempotent_witness :
  JS.is_digit_or_dot "9" = true.
Proof.
  apply (proj2 (proj2 (strip_non_price_idempotent "$9.50" "")) "9"%char).
  vm_compute. left. reflexivity.
Defined.

Lemma two_decimal_points_arrive_as_null_witness :
  let cfg := Sample.acme None None 1 in
  let p := Watcher.extract Sample.no_patterns cfg Sample.garbled in
  Product.price p = JS.Val PrimFloat.nan
  /\ Product.has_tag "Price" p = false
  /\ Product.price (Watcher.transport p) = JS.Null
  /\ forall l,
       In (Watcher.transport p) (Watcher.inStock cfg (Sample.master None) l) <->
       In (Watcher.transport p) l
       /\ JS.ToBoolean (Product.outOfStock p) = false
       /\ JS.lt 0 (Watcher.priceCeiling cfg (Sample.master None)) = true.
Proof.
  intros cfg p.
  apply (two_decimal_points_arrive_as_null Sample.no_patterns cfg
           (Sample.master None) Sample.garbled (Sample.element "$1.2.3")).
  - reflexivity.
  - simpl. lia.
Defined.

Lemma unparsable_price_is_notified_witness :
  let cfg := Sample.acme None None 1 in
  let doc := Sample.document [Sample.garbled] in
  Watcher.notifications
    (Watcher.trace
       (Watcher.checkPage Sample.no_patterns cfg (Sample.master None)
          (Sample.responses 1 doc) Watcher.initial))
  = [[Watcher.transport (Watcher.extract Sample.no_patterns cfg Sample.garbled)]].
Proof.
  intros cfg doc.
  apply (unparsable_price_is_notified Sample.no_patterns cfg
           (Sample.master None) (Sample.responses 1 doc) Watcher.initial
           1%nat doc Sample.garbled PrimFloat.nan);
    reflexivity.
Defined.

(** The page with the price text [$1.2.3]: the check notifies and arms the
    success timer. *)
Example garbled_price_is_notified :
  Watcher.trace
    (Watcher.checkPage Sample.no_patterns (Sample.acme None None 1)
       (Sample.master None)
       (Sample.responses 1 (Sample.document [Sample.garbled]))
       Watcher.initial)
  = [Watcher.NewPage 1; Watcher.Goto "https://acme.example/rtx-3080";
     Watcher.Notify
       [{| Product.productName := JS.Val "RTX 3080";
           Product.productURL := JS.Val "https://acme.example/rtx-3080";
           Product.outOfStock := JS.Val false;
           Product.price := JS.Null;
           Product.errors := Product.NoErrors |}];
     Watcher.Screenshot "success" 1; Watcher.SetTimeout 300000%float;
     Watcher.Close 1].
Proof. vm_compute. reflexivity. Qed.

Lemma count_mismatch_takes_error_branch_witness :
  let cfg := Sample.acme None None 2 in
  let doc := Sample.document [Sample.priced "$499.99"] in
  let tr :=
    Watcher.trace
      (Watcher.checkPage Sample.no_patterns cfg (Sample.master None)
         (Sample.responses 1 doc) Watcher.initial) in
  Watcher.notifications tr = [] /\ Watcher.timers tr = [30000%float].
Proof.
  intros cfg doc tr.
  apply (count_mismatch_takes_error_branch Sample.no_patterns cfg
           (Sample.master None) (Sample.responses 1 doc) Watcher.initial
           1%nat doc eq_refl eq_refl eq_refl eq_refl).
  vm_compute. discriminate.
Defined.

Lemma empty_page_never_notifies_witness :
  let cfg := Sample.acme None None 0 in
  let doc := Sample.document [] in
  Watcher.notifications
    (Watcher.trace
       (Watcher.checkPage Sample.no_patterns cfg (Sample.master None)
          (Sample.responses 1 doc) Watcher.initial)) = [].
Proof.
  intros cfg doc.
  exact (empty_page_never_notifies Sample.no_patterns cfg (Sample.master None)
           (Sample.responses 1 doc) Watcher.initial doc eq_refl eq_refl).
Defined.

Lemma notify_at_most_once_never_empty_witness :
  let cfg := Sample.acme None None 1 in
  let doc := Sample.document [Sample.priced "$499.99"] in
  Watcher.inStock cfg (Sample.master None)
    (Watcher.getProducts Sample.no_patterns cfg doc) <> [].
Proof.
  intros cfg doc.
  apply (proj2 (notify_at_most_once_never_empty Sample.no_patterns cfg
                  (Sample.master None) (Sample.responses 1 doc)
                  Watcher.initial)).
  vm_compute. left. reflexivity.
Defined.


Lemma mail_of_a_check_repeats_the_target_url_witness :
  let cfg := Sample.acme None None 2 in
  let doc := Sample.document [Sample.priced "$499.99"; Sample.garbled] in
  Watcher.notify cfg true Sample.mailbox
    (Watcher.inStock cfg (Sample.master None)
       (Watcher.received (Watcher.getProducts Sample.no_patterns cfg doc)))
  = Some {| Watcher.from := "watcher@example.com";
            Watcher.to := "a@example.com, b@example.com";
            Watcher.subject := "Acme in Stock";
            Watcher.text :=
              ("https://acme.example/rtx-3080" ++ JS.newline
               ++ "https://acme.example/rtx-3080")%string |}.
Proof.
  intros cfg doc.
  exact (mail_of_a_check_repeats_the_target_url Sample.no_patterns cfg
           (Sample.master None) Sample.mailbox doc eq_refl).
Defined.

Lemma nothing_released_while_a_page_stays_open_witness :
  let s := {| Main.pages := 2; Main.queue := [5%nat]; Main.resolved := [] |} in
  let l := [Main.Tick; Main.Wait (Sample.acme None None 1) 6; Main.Tick] in
  let run := Main.steps (Sample.master (Some 1%Z)) l s in
  Main.released_of (snd run) = []
  /\ (2 <= Main.pages (fst run))%nat
  /\ exists added, Main.queue (fst run) = [5%nat] ++ added.
Proof.
  intros s l run.
  apply (nothing_released_while_a_page_stays_open (Sample.master (Some 1%Z)) l s).
  - simpl. lia.
  - intros a [<- | [<- | [<- | []]]]; discriminate.
Defined.

Lemma negative_ceiling_queues_everything_witness :
  let MasterConfig := Sample.master (Some (-1)%Z) in
  snd (Main.wait MasterConfig (Sample.acme None None 1) 1%nat Main.idle) = false
  /\ Main.queue
       (fst (Main.wait MasterConfig (Sample.acme None None 1) 1%nat Main.idle))
     = [1%nat].
Proof.
  intro MasterConfig.
  apply (proj2 (negative_ceiling_queues_everything MasterConfig)).
  vm_compute. reflexivity.
Defined.

Lemma init_staggers_the_enabled_witness :
  let watches := [Sample.target "A"; Sample.target "B"; Sample.target "C"] in
  5000%Z = (5000 * Z.of_nat 1)%Z
  /\ nth_error (filter (Main.enabled (Some ["B"])) watches) 1
     = Some (Sample.target "C").
Proof.
  intro watches.
  apply (init_staggers_the_enabled watches (Some ["B"]) 1%nat 5000%Z
           (Sample.target "C")).
  reflexivity.
Defined.

Lemma disabled_store_is_not_started_witness :
  let watches := [Sample.target "A"; Sample.target "B"; Sample.target "C"] in
  In (Sample.target "C") watches
  /\ (WatchConfig.store (Sample.target "C") = EmptyString
      \/ forall listed, Some ["B"] = Some listed ->
                        ~ In (WatchConfig.store (Sample.target "C")) listed).
Proof.
  intro watches.
  apply (disabled_store_is_not_started watches (Some ["B"]) 5000%Z
           (Sample.target "C")).
  vm_compute. right. left. reflexivity.
Defined.

Lemma every_enabled_watch_is_started_witness :
  let watches := [Sample.target "A"; Sample.target ""; Sample.target "C"] in
  exists d, In (d, Sample.target "") (Main.init watches (Some [""; "A"])).
Proof.
  intro watches.
  apply (every_enabled_watch_is_started watches (Some [""; "A"])
           (Sample.target "")).
  - right. left. reflexivity.
  - left. reflexivity.
Defined.

Lemma cooperative_loop_keeps_going_witness :
  let doc := Sample.document [Sample.sold_out] in
  List.length
    (Watcher.run Sample.no_patterns (Sample.acme None None 1)
       (Sample.master None) 7 (fun k => Sample.responses k doc) 0
       Watcher.initial)
  = 7%nat.
Proof.
  intro doc.
  apply (cooperative_loop_keeps_going Sample.no_patterns
           (Sample.acme None None 1) (Sample.master None)
           (fun k => Sample.responses k doc)).
  intro k. reflexivity.
Defined.

Lemma atomic_runs_respect_ceiling_witness :
  let cfg := Sample.acme None None 1 in
  (Main.open_contexts
     (fold_left (fun s a => Main.atomic_step (Sample.master (Some 2%Z)) a s)
        [Main.Acquire cfg 1; Main.Acquire cfg 2; Main.Acquire cfg 3;
         Main.Release; Main.Reclaim; Main.Release; Main.Reclaim]
        Main.idle)
   <= Main.tabCeiling (Sample.master (Some 2%Z)))%Z.
Proof.
  intro cfg.
  apply (atomic_runs_respect_ceiling (Sample.master (Some 2%Z))).
  vm_compute. discriminate.
Defined.

Lemma released_is_prefix_of_queued_witness :
  let cfg := Sample.acme None None 1 in
  let run :=
    Main.steps (Sample.master (Some 1%Z))
      [Main.Wait cfg 1; Main.OpenPage 1; Main.Wait cfg 2; Main.Wait cfg 3;
       Main.ClosePage; Main.Tick] Main.idle in
  Main.queued_of (snd run) = Main.released_of (snd run) ++ Main.queue (fst run).
Proof.
  intros cfg run.
  apply (released_is_prefix_of_queued (Sample.master (Some 1%Z))).
  reflexivity.
Defined.

(** The configured example: three targets, the second one disabled. *)
Example init_skips_the_disabled_target :
  Main.init [Sample.target "A"; Sample.target "B"; Sample.target "C"]
    (Some ["B"])
  = [(0%Z, Sample.target "A"); (5000%Z, Sample.target "C")].
Proof. reflexivity. Qed.

(** X11: A check opens a page only after the gate granted its request, and at
    most one page. *)
Theorem page_opened_only_after_admission
  (RegExp_gi_match : string -> string -> option (list string))
  (watchConfig : WatchConfig.t) (MasterConfig : MasterConfig.t)
  (r : Watcher.Responses) (s : Watcher.fields) (n : nat) :
  In (Watcher.NewPage n)
    (Watcher.trace
       (Watcher.checkPage RegExp_gi_match watchConfig MasterConfig r s)) ->
  Watcher.wait r = Watcher.Granted /\ Watcher.newPage r = Some n
  /\ count_occ Nat.eq_dec
       (flat_map (fun e => match e with Watcher.NewPage m => [m] | _ => [] end)
          (Watcher.trace
             (Watcher.checkPage RegExp_gi_match watchConfig MasterConfig r s)))
       n = 1%nat.
Proof.
  destruct r as [w np g ws ev ss]; destruct s as [pg h].
  unfold Watcher.checkPage, Watcher.loadPage, Watcher.process,
    Watcher.evaluate_getProducts, Watcher.screenshot, Watcher.close_page,
    Watcher.arm, Watcher.attempt, Watcher.bind, Watcher.trace; simpl.
  assert (Hone : forall m, m = n ->
            (if Nat.eq_dec m n then 1 else 0)%nat = 1%nat)
    by (intros m ->; destruct (Nat.eq_dec n n); [reflexivity | contradiction]).
  destruct w, np as [m|]; simpl;
    try (destruct pg as [[i c]|]; simpl; try destruct c; simpl;
         try destruct ss; simpl; intro H;
         repeat (destruct H as [H | H]; [discriminate H|]); contradiction).
  destruct ws; [destruct ev as [doc|]|]; simpl.
  - destruct (0 <? _)%nat; simpl;
      [destruct ss
      | destruct (_ =? 0)%nat; simpl; [|destruct ss]]; simpl;
      (intros [H | H];
       [injection H as ->; rewrite (Hone n eq_refl); auto
       | repeat (destruct H as [H | H]; [discriminate H|]); contradiction]).
  - intros [H | H];
      [injection H as ->; rewrite (Hone n eq_refl); auto
      | repeat (destruct H as [H | H]; [discriminate H|]); contradiction].
  - destruct ss; simpl;
      (intros [H | H];
       [injection H as ->; rewrite (Hone n eq_refl); auto
       | repeat (destruct H as [H | H]; [discriminate H|]); contradiction]).
Qed.

Lemma page_opened_only_after_admission_witness :
  let r := Sample.stuck_page 4 in
  Watcher.wait r = Watcher.Granted /\ Watcher.newPage r = Some 4%nat
  /\ count_occ Nat.eq_dec
       (flat_map (fun e => match e with Watcher.NewPage m => [m] | _ => [] end)
          (Watcher.trace
             (Watcher.checkPage Sample.no_patterns (Sample.acme None None 1)
                (Sample.master None) r Watcher.initial)))
       4%nat = 1%nat.
Proof.
  intro r.
  apply (page_opened_only_after_admission Sample.no_patterns
           (Sample.acme None None 1) (Sample.master None) r Watcher.initial).
  left. reflexivity.
Defined.
